(** * NGN: the base class (NGN.Base) and NGN.user.Login

    A shallow embedding of the two JavaScript files of the repository,

      - the NGN base class ([NGNClass], the file that ends in
        [module.exports = NGNClass]), and
      - [lib/user/Login.js] ([Login = NGN.extend({...})]),

    together with the properties of their accessors, methods and
    constructors.

    The program is object-oriented JavaScript: one receiver ([this]) whose
    own properties are data slots or accessor slots, a prototype chain that
    supplies the methods, and calls on collaborators that live outside the
    repository (Node's [events.EventEmitter], the NGN Mechanic attached to
    [process]).  The embedding keeps exactly that shape:

      - JavaScript values are an inductive type [value];
      - the receiver is a list of named slots ([Data] / [Accessor]);
      - a function of the source is a computation in a small state and
        exception monad [M]; a [throw] keeps the state reached so far;
      - every call that an EventEmitter or the Mechanic carries out is
        appended to a log, in the order the calls are made; the listeners of
        a channel are read off that log, and a call that Node refuses (an
        ['error'] event nobody listens to, a listener that is not a function,
        a negative capacity) throws as it does in Node;
      - [this.name] and [this.name = v] go through [getv] and [setv], which
        run the accessor functions of the receiver; recursion through the
        receiver is bounded by a fuel argument of [apply]. *)

From Stdlib Require Import String Ascii List Bool Arith ZArith Lia.
Import ListNotations.
Local Open Scope string_scope.
Local Open Scope list_scope.
Set Warnings "-register-all".

(** ** Strings: [String.prototype.trim] and [toLowerCase]

    A string is a sequence of code units below 256 (the Latin-1 range of
    JavaScript strings).  In that range the white space that [trim] removes
    is TAB, LF, VT, FF, CR, SPACE and NO-BREAK SPACE, and [toLowerCase] maps
    [A-Z] and the accented capitals U+00C0..U+00DE (the multiplication sign
    U+00D7 excepted) to the letter 32 places further on. *)

Definition is_white_space (c : ascii) : bool :=
  let n := nat_of_ascii c in
  ((9 <=? n)%nat && (n <=? 13)%nat) || (n =? 32)%nat || (n =? 160)%nat.

Fixpoint drop_white_space (l : list ascii) : list ascii :=
  match l with
  | [] => []
  | c :: r => if is_white_space c then drop_white_space r else l
  end.

Definition trim (s : string) : string :=
  string_of_list_ascii
    (rev (drop_white_space (rev (drop_white_space (list_ascii_of_string s))))).

Definition lower_ascii (c : ascii) : ascii :=
  let n := nat_of_ascii c in
  if ((65 <=? n)%nat && (n <=? 90)%nat)
     || ((192 <=? n)%nat && (n <=? 222)%nat && negb (n =? 215)%nat)
  then ascii_of_nat (n + 32)
  else c.

Fixpoint toLowerCase (s : string) : string :=
  match s with
  | EmptyString => EmptyString
  | String c r => String (lower_ascii c) (toLowerCase r)
  end.

(** ** Values *)

(** The function objects of the two files, by the name they are bound to.
    [foreign] stands for any function defined elsewhere (a listener handed in
    by a caller, [NGN.emptyFn], ...). *)
Inductive fn : Type :=
| NGN_once
| NGN_setMaxListeners
| NGN_removeAllListeners
| NGN_emit
| NGN_fireEvent
| NGN_fireWarning
| NGN_fireError
| NGN_on
| NGN_addEventListeners
| NGN_onError
| Login_get_ID
| Login_get_accesstoken
| Login_set_accesstoken
| Login_get_oauthprovider
| Login_get_oauth
| Login_get_modified
| Login_set_modified
| Login_processHttpRequest
| Login_authenticate
| once_default_handler
| foreign (label : string).

Inductive value : Type :=
| VUndefined
| VNull
| VBool (b : bool)
| VNumber (n : Z)
| VString (s : string)
| VObject (fields : list (string * value))
| VArray (items : list value)
| VFunction (f : fn)
| VProviderClosure (req : value)
| VEmitter (id : nat).

(** [VObject] is an object literal or a payload object (own enumerable data
    properties in the order they were written); [VProviderClosure req] is the
    function literal that [processHttpRequest] creates, closed over its
    argument [req]; [VEmitter id] is an [events.EventEmitter]. *)

Fixpoint lookup {A : Type} (k : string) (l : list (string * A)) : option A :=
  match l with
  | [] => None
  | (k', a) :: r => if String.eqb k k' then Some a else lookup k r
  end.

(** ToBoolean. *)
Definition truthy (v : value) : bool :=
  match v with
  | VUndefined | VNull => false
  | VBool b => b
  | VNumber n => negb (Z.eqb n 0)
  | VString s => negb (String.eqb s "")
  | _ => true
  end.

(** [a || b] on values that are already evaluated. *)
Definition js_or (a b : value) : value := if truthy a then a else b.

(** [!a]. *)
Definition js_not (a : value) : value := VBool (negb (truthy a)).

(** [a == null]: true for [null] and [undefined] only. *)
Definition loose_eq_null (a : value) : bool :=
  match a with
  | VUndefined | VNull => true
  | _ => false
  end.

(** [a === 'literal']. *)
Definition strict_eq_string (a : value) (s : string) : bool :=
  match a with
  | VString t => String.eqb t s
  | _ => false
  end.

(** ** Completions, exceptions, the log and the state *)

Inductive exn : Type :=
| TypeError
| ReferenceError
| Unhandled.

(** [Unhandled] is what Node throws when an ['error'] event is emitted on a
    channel that has no listener for it (the payload itself when it is an
    Error, an error object made for the occasion otherwise). *)

Inductive completion (A : Type) : Type :=
| Normal (a : A)
| Throw (e : exn)
| Abort.
Arguments Normal {A} a.
Arguments Throw {A} e.
Arguments Abort {A}.

(** [Abort] is not a JavaScript outcome: it marks a run that leaves the
    model (fuel exhausted, or control passed to a function that is not part
    of the two files). *)

Inductive klass : Type :=
| KClass
| KNGNClass
| KLogin.

(** The log: calls on collaborators in the order they happen, and two kinds
    of bookkeeping entries for construction ([Enter], [Define]). *)
Inductive event : Type :=
| Enter (k : klass) (config : value)
| Define (k : klass) (names : list string)
| EmitterNew (id : nat)
| EmitterSetMax (id : nat) (n : value)
| EmitterOn (id : nat) (eventName handler : value)
| EmitterOnce (id : nat) (eventName handler : value)
| EmitterRemoveAll (id : nat)
| EmitterEmit (id : nat) (eventName payload : value)
| MechanicSend (eventName payload : value).

(** An own property of the receiver. *)
Inductive slot : Type :=
| Data (v : value) (writable enumerable configurable : bool)
| Accessor (getter setter : option fn) (enumerable configurable : bool).

Definition object : Type := list (string * slot).

Record state : Type := mkState {
  own : object;            (* own properties of [this], in creation order *)
  kind : klass;            (* the class whose prototype [this] has *)
  log : list event;
  emitters : nat;          (* number of EventEmitters created so far *)
  mechanic : bool          (* process.hasOwnProperty('mechanic'): the NGN
                              Mechanic is attached to the process *)
}.

Definition with_own (st : state) (o : object) : state :=
  mkState o (kind st) (log st) (emitters st) (mechanic st).

Definition with_log (st : state) (l : list event) : state :=
  mkState (own st) (kind st) l (emitters st) (mechanic st).

Definition M (A : Type) : Type := state -> completion A * state.

Definition ret {A : Type} (a : A) : M A := fun st => (Normal a, st).

Definition bind {A B : Type} (m : M A) (f : A -> M B) : M B :=
  fun st =>
    match m st with
    | (Normal a, st') => f a st'
    | (Throw e, st') => (Throw e, st')
    | (Abort, st') => (Abort, st')
    end.

Definition throw {A : Type} (e : exn) : M A := fun st => (Throw e, st).

Definition abort {A : Type} : M A := fun st => (Abort, st).

Definition lift {A : Type} (c : completion A) : M A := fun st => (c, st).

Definition record (e : event) : M unit :=
  fun st => (Normal tt, with_log st (log st ++ [e])%list).

Declare Scope js_scope.
Delimit Scope js_scope with js.
Notation "x <- m ;; k" := (bind m (fun x => k))
  (at level 100, m at next level, right associativity) : js_scope.
Notation "m ;; k" := (bind m (fun _ => k))
  (at level 100, right associativity) : js_scope.
Local Open Scope js_scope.

(** ** Property access on values *)

(** [v.name] for a value that is not the receiver.  Reading a property of
    [undefined] or [null] throws; a payload object yields the field or
    [undefined]; primitives and the other values have none of the names the
    program reads. *)
Definition member (v : value) (name : string) : completion value :=
  match v with
  | VUndefined | VNull => Throw TypeError
  | VObject fields =>
      match lookup name fields with
      | Some x => Normal x
      | None => Normal VUndefined
      end
  | _ => Normal VUndefined
  end.

(** [v.trim()]: a string is trimmed; on anything else there is no callable
    [trim] ([TypeError]), except that an object carrying a [trim] field
    leaves the model. *)
Definition call_trim (v : value) : completion value :=
  match v with
  | VString s => Normal (VString (trim s))
  | VObject fields =>
      match lookup "trim" fields with
      | Some _ => Abort
      | None => Throw TypeError
      end
  | _ => Throw TypeError
  end.

(** [v.toLowerCase()]. *)
Definition call_toLowerCase (v : value) : completion value :=
  match v with
  | VString s => Normal (VString (toLowerCase s))
  | VObject fields =>
      match lookup "toLowerCase" fields with
      | Some _ => Abort
      | None => Throw TypeError
      end
  | _ => Throw TypeError
  end.

(** ['on' + v] for a string [v] (the only operand the program produces). *)
Definition concat_on (v : value) : completion string :=
  match v with
  | VString s => Normal (String.append "on" s)
  | _ => Abort
  end.

(** [a == 'email'].  Against this literal, which is not numeric, primitives
    other than the string itself compare unequal; a payload object without
    [toString]/[valueOf] converts to ["[object Object]"]; arrays and objects
    with their own conversion leave the model. *)
Definition loose_eq_email (a : value) : completion bool :=
  match a with
  | VString t => Normal (String.eqb t "email")
  | VObject fields =>
      match lookup "toString" fields, lookup "valueOf" fields with
      | None, None => Normal false
      | _, _ => Abort
      end
  | VArray _ => Abort
  | _ => Normal false
  end.

(** [args[i]], [undefined] when the call passes fewer arguments. *)
Definition arg (i : nat) (args : list value) : value := nth i args VUndefined.

(** ** Property descriptors and [Object.defineProperties] *)

Record descriptor : Type := mkDescriptor {
  d_value : option value;
  d_get : option fn;
  d_set : option fn;
  d_writable : option bool;
  d_enumerable : option bool;
  d_configurable : option bool
}.

Definition present {A : Type} (o : option A) : bool :=
  match o with
  | Some _ => true
  | None => false
  end.

Definition default {A : Type} (o : option A) (d : A) : A :=
  match o with
  | Some a => a
  | None => d
  end.

(** ToPropertyDescriptor rejects a descriptor that has [get] or [set]
    together with [value] or [writable]. *)
Definition valid_descriptor (d : descriptor) : bool :=
  negb ((present (d_get d) || present (d_set d))
        && (present (d_value d) || present (d_writable d))).

(** The slot a descriptor creates on an object that has no property of that
    name: absent attributes take their defaults. *)
Definition slot_of (d : descriptor) : slot :=
  if present (d_get d) || present (d_set d) then
    Accessor (d_get d) (d_set d)
             (default (d_enumerable d) false) (default (d_configurable d) false)
  else
    Data (default (d_value d) VUndefined) (default (d_writable d) false)
         (default (d_enumerable d) false) (default (d_configurable d) false).

Definition configurable (s : slot) : bool :=
  match s with
  | Data _ _ _ c => c
  | Accessor _ _ _ c => c
  end.

Fixpoint store (k : string) (s : slot) (o : object) : object :=
  match o with
  | [] => [(k, s)]
  | (k', s') :: r =>
      if String.eqb k k' then (k, s) :: r else (k', s') :: store k s r
  end.

(** [[DefineOwnProperty]]: a new name is appended; a configurable property is
    replaced; a non-configurable one is not redefined.  (The language also
    accepts a redefinition that changes nothing; no table of the program
    repeats a name.) *)
Definition define_own (name : string) (d : descriptor) (o : object)
  : completion object :=
  match lookup name o with
  | None => Normal (o ++ [(name, slot_of d)])%list
  | Some s =>
      if configurable s then Normal (store name (slot_of d) o)
      else Throw TypeError
  end.

Fixpoint define_all (props : list (string * descriptor)) (o : object)
  : completion object :=
  match props with
  | [] => Normal o
  | (name, d) :: r =>
      match define_own name d o with
      | Normal o' => define_all r o'
      | c => c
      end
  end.

(** [Object.defineProperties(this, props)] made by the constructor of class
    [k]: every descriptor is converted first, so one invalid descriptor
    throws before any property is defined. *)
Definition defineProperties (k : klass) (props : list (string * descriptor))
  : M unit :=
  record (Define k (map fst props)) ;;
  if forallb (fun p => valid_descriptor (snd p)) props then
    fun st =>
      match define_all props (own st) with
      | Normal o => (Normal tt, with_own st o)
      | Throw e => (Throw e, st)
      | Abort => (Abort, st)
      end
  else throw TypeError.

(** ** Node's [events.EventEmitter]

    The channel as Node (0.10 and later) implements it, as far as the two
    files use it. *)

(** [typeof v === 'function']. *)
Definition is_function (v : value) : bool :=
  match v with
  | VFunction _ | VProviderClosure _ => true
  | _ => false
  end.

(** A listener that does nothing whatever it is called with and whatever its
    receiver: the function literal [function(){}] of [once]. *)
Definition is_noop (v : value) : bool :=
  match v with
  | VFunction once_default_handler => true
  | _ => false
  end.

Record listener : Type := mkListener {
  l_event : string;
  l_handler : value;
  l_once : bool
}.

(** The listeners of channel [id] after one more entry of the log: [on] and
    [once] append, [removeAllListeners] and the creation of the channel
    clear, an emit removes the one-shot listeners of its event. *)
Definition register (id : nat) (ls : list listener) (e : event)
  : list listener :=
  match e with
  | EmitterNew i => if Nat.eqb i id then [] else ls
  | EmitterOn i (VString n) h =>
      if Nat.eqb i id then ls ++ [mkListener n h false] else ls
  | EmitterOnce i (VString n) h =>
      if Nat.eqb i id then ls ++ [mkListener n h true] else ls
  | EmitterRemoveAll i => if Nat.eqb i id then [] else ls
  | EmitterEmit i (VString n) _ =>
      if Nat.eqb i id then
        filter (fun l => negb (String.eqb (l_event l) n && l_once l)) ls
      else ls
  | _ => ls
  end.

Definition listeners (id : nat) (st : state) : list listener :=
  fold_left (register id) (log st) [].

(** The listeners of channel [id] for event [n], in registration order. *)
Definition handlers (id : nat) (n : string) (st : state) : list listener :=
  filter (fun l => String.eqb (l_event l) n) (listeners id st).

Definition silent (id : nat) (n : string) (st : state) : bool :=
  match handlers id n st with
  | [] => true
  | _ :: _ => false
  end.

(** What [emit(n, ...)] on channel [id] comes to.  Without listener Node
    returns [false], except for ['error'], which it throws.  With listeners
    it runs them in order and returns [true]; the run stays inside the model
    when every listener is the no-op literal and removing a one-shot listener
    notifies nobody. *)
Definition delivery (id : nat) (n : string) (st : state) : completion bool :=
  match handlers id n st with
  | [] => if String.eqb n "error" then Throw Unhandled else Normal false
  | hs =>
      if forallb (fun l => is_noop (l_handler l)) hs
         && (negb (existsb l_once hs) || silent id "removeListener" st)
      then Normal true
      else Abort
  end.

(** [target.emit(name, payload)].  A target that is [undefined], [null] or
    has no such method throws; a payload object that carries the method, and
    an event name that is not a string, leave the model. *)
Definition emitter_emit (target name payload : value) : M value :=
  match target with
  | VEmitter id =>
      match name with
      | VString n =>
          fun st =>
            match delivery id n st with
            | Normal heard =>
                (Normal (VBool heard),
                 with_log st (log st ++ [EmitterEmit id name payload]))
            | Throw e => (Throw e, st)
            | Abort => (Abort, st)
            end
      | _ => abort
      end
  | VObject fields =>
      match lookup "emit" fields with
      | Some _ => abort
      | None => throw TypeError
      end
  | _ => throw TypeError
  end.

(** [target.on(name, listener)] and [target.once(name, listener)]: Node
    throws a [TypeError] for a listener that is not a function, and tells
    the listeners of ['newListener'], if any, before it registers.  (The
    warning it prints when an event has more listeners than the capacity
    allows is console output and leaves no trace in the log.) *)
Definition emitter_add (once : bool) (target name listener : value)
  : M value :=
  match target with
  | VEmitter id =>
      if negb (is_function listener) then throw TypeError
      else
        match name with
        | VString n =>
            fun st =>
              if silent id "newListener" st then
                (Normal VUndefined,
                 with_log st
                   (log st
                    ++ [if once then EmitterOnce id name listener
                        else EmitterOn id name listener]))
              else (Abort, st)
        | _ => abort
        end
  | VObject fields =>
      match lookup (if once then "once" else "on") fields with
      | Some _ => abort
      | None => throw TypeError
      end
  | _ => throw TypeError
  end.

(** [target.setMaxListeners(n)]: Node throws a [TypeError] unless [n] is a
    number that is not negative. *)
Definition emitter_setMaxListeners (target n : value) : M value :=
  match target with
  | VEmitter id =>
      match n with
      | VNumber z =>
          if Z.ltb z 0 then throw TypeError
          else (record (EmitterSetMax id n) ;; ret VUndefined)
      | _ => throw TypeError
      end
  | VObject fields =>
      match lookup "setMaxListeners" fields with
      | Some _ => abort
      | None => throw TypeError
      end
  | _ => throw TypeError
  end.

(** [target.removeAllListeners()]: Node tells the listeners of
    ['removeListener'], if any, about every listener it removes. *)
Definition emitter_removeAllListeners (target : value) : M value :=
  match target with
  | VEmitter id =>
      fun st =>
        if silent id "removeListener" st then
          (Normal VUndefined, with_log st (log st ++ [EmitterRemoveAll id]))
        else (Abort, st)
  | VObject fields =>
      match lookup "removeAllListeners" fields with
      | Some _ => abort
      | None => throw TypeError
      end
  | _ => throw TypeError
  end.

(** A member access on [undefined] or [null] throws before the arguments of
    the call are evaluated. *)
Definition coercible (v : value) : M unit :=
  match v with
  | VUndefined | VNull => throw TypeError
  | _ => ret tt
  end.

(** [new events.EventEmitter()]. *)
Definition new_EventEmitter : M value :=
  fun st =>
    let id := emitters st in
    (Normal (VEmitter id),
     mkState (own st) (kind st) (log st ++ [EmitterNew id])%list (S id)
             (mechanic st)).

(** [process.hasOwnProperty('mechanic')]. *)
Definition process_has_mechanic : M bool :=
  fun st => (Normal (mechanic st), st).

(** [for (var key in object)]: the own enumerable keys, those that are
    array indices first, in ascending order, then the others in the order
    they were written. *)
Definition digit (c : ascii) : option N :=
  let n := N_of_ascii c in
  if (N.leb 48 n && N.leb n 57)%bool then Some (n - 48)%N else None.

Fixpoint digits (s : string) (acc : N) : option N :=
  match s with
  | EmptyString => Some acc
  | String c r =>
      match digit c with
      | Some d => digits r (acc * 10 + d)%N
      | None => None
      end
  end.

(** The array index a key denotes: decimal digits without leading zero,
    below 2^32 - 1. *)
Definition array_index (key : string) : option N :=
  match key with
  | EmptyString => None
  | String "0" (String _ _) => None
  | _ =>
      match digits key 0 with
      | Some n => if N.ltb n 4294967295 then Some n else None
      | None => None
      end
  end.

Fixpoint least_index (fields : list (string * value))
  (best : option (N * string)) : option (N * string) :=
  match fields with
  | [] => best
  | (key, _) :: rest =>
      least_index rest
        (match array_index key, best with
         | Some n, Some (m, _) => if N.ltb n m then Some (n, key) else best
         | Some n, None => Some (n, key)
         | None, _ => best
         end)
  end.

Definition first_key (fields : list (string * value)) : option string :=
  match least_index fields None with
  | Some (_, key) => Some key
  | None =>
      match fields with
      | (key, _) :: _ => Some key
      | [] => None
      end
  end.

(** The function that [processHttpRequest] stores:

    [function (){ for (var obj in req.user) {
                    return obj.trim().toLowerCase(); } }]

    It returns the first key that [for-in] visits, trimmed and lower-cased.
    When [req.user] has no own key the enumeration passes on to what it
    inherits, which the two files do not determine. *)
Definition provider_closure_body (req : value) : completion value :=
  match member req "user" with
  | Normal (VObject fields) =>
      match first_key fields with
      | Some key => Normal (VString (toLowerCase (trim key)))
      | None => Abort
      end
  | Normal (VString (String _ _)) => Normal (VString "0")
  | Normal (VArray (_ :: _)) => Normal (VString "0")
  | Normal VUndefined | Normal VNull => Normal VUndefined
  | Normal _ => Abort
  | Throw e => Throw e
  | Abort => Abort
  end.

(** The elements visited by [for (var i=0; i<evt.length; i++) ... evt[i]]. *)
Fixpoint characters (s : string) : list value :=
  match s with
  | EmptyString => []
  | String c r => VString (String c EmptyString) :: characters r
  end.

Definition elements (evt : value) : completion (list value) :=
  match evt with
  | VUndefined | VNull => Throw TypeError
  | VArray items => Normal items
  | VString s => Normal (characters s)
  | VObject fields =>
      match lookup "length" fields with
      | Some _ => Abort
      | None => Normal []
      end
  | VFunction _ | VProviderClosure _ => Abort
  | _ => Normal []
  end.

(** ** The program *)

Section Program.

(** What the two files take from the rest of the repository.

    [Class_prototype] and [Class_constructor] are the prototype and the
    constructor of the root class exported by [./Class], which is not among
    the files; [NGN_emptyFn] is what evaluating the global expression
    [NGN.emptyFn] comes to when [on] falls back to it: a value, or a
    [ReferenceError] when no global [NGN] exists (the namespace is set up by
    the bootstrap of the package, outside the two files). *)
Variable Class_prototype : string -> option value.
Variable Class_constructor : value -> object -> completion object.
Variable NGN_emptyFn : completion value.

(** *** The prototype chain *)

Definition NGNClass_prototype (name : string) : option value :=
  lookup name
    [ ("once", VFunction NGN_once);
      ("setMaxListeners", VFunction NGN_setMaxListeners);
      ("removeAllListeners", VFunction NGN_removeAllListeners);
      ("emit", VFunction NGN_emit);
      ("fireEvent", VFunction NGN_fireEvent);
      ("fireWarning", VFunction NGN_fireWarning);
      ("fireError", VFunction NGN_fireError);
      ("on", VFunction NGN_on);
      ("addEventListeners", VFunction NGN_addEventListeners);
      ("onError", VFunction NGN_onError) ].

Definition Login_prototype (name : string) : option value :=
  lookup name
    [ ("processHttpRequest", VFunction Login_processHttpRequest);
      ("authenticate", VFunction Login_authenticate) ].

Definition or_else {A : Type} (a b : option A) : option A :=
  match a with
  | Some _ => a
  | None => b
  end.

(** Modelled from the spec: [extend] of [./Class] is not among the files.  A
    derived type shares the prototype chain of its base type, and [X.super]
    is the prototype of the type [X] was derived from.  [Login] is
    [NGN.extend({...})] with [NGN] the module of the NGN base class, which is
    itself [require('./Class').extend({...})]; so a [Login] inherits from
    [Login.prototype], then from the prototype of the NGN base class, then
    from the root class, and [Login.super.constructor] is the constructor of
    the NGN base class. *)
Definition inherited (k : klass) (name : string) : option value :=
  match k with
  | KLogin =>
      or_else (Login_prototype name)
              (or_else (NGNClass_prototype name) (Class_prototype name))
  | KNGNClass => or_else (NGNClass_prototype name) (Class_prototype name)
  | KClass => Class_prototype name
  end.

(** *** Reading and writing properties of [this] *)

(** [this.name]: an own data slot yields its value, an own accessor runs its
    getter, anything else is looked up along the prototype chain. *)
Definition getv (call : fn -> list value -> M value) (name : string)
  : M value :=
  fun st =>
    match lookup name (own st) with
    | Some (Data v _ _ _) => (Normal v, st)
    | Some (Accessor (Some g) _ _ _) => call g [] st
    | Some (Accessor None _ _ _) => (Normal VUndefined, st)
    | None => (Normal (default (inherited (kind st) name) VUndefined), st)
    end.

(** [this.name = v]: a writable data slot is overwritten, an accessor runs
    its setter, an unknown name becomes a new own data property (the
    inherited properties are plain methods).  A write to a read-only slot or
    to an accessor without setter is dropped silently by non-strict code and
    throws a [TypeError] in strict code; the two files are non-strict. *)
Definition setv (strict : bool) (call : fn -> list value -> M value)
  (name : string) (v : value) : M unit :=
  fun st =>
    match lookup name (own st) with
    | Some (Data _ true e c) =>
        (Normal tt, with_own st (store name (Data v true e c) (own st)))
    | Some (Data _ false _ _) =>
        if strict then (Throw TypeError, st) else (Normal tt, st)
    | Some (Accessor _ (Some s) _ _) => (call s [v] ;; ret tt) st
    | Some (Accessor _ None _ _) =>
        if strict then (Throw TypeError, st) else (Normal tt, st)
    | None =>
        (Normal tt, with_own st (own st ++ [(name, Data v true true true)])%list)
    end.

(** [f(args)] with [this] as receiver, for a value [f]. *)
Definition call_value (call : fn -> list value -> M value) (f : value)
  (args : list value) : M value :=
  match f with
  | VFunction g => call g args
  | VProviderClosure req => lift (provider_closure_body req)
  | _ => throw TypeError
  end.

(** [this.name(args)]. *)
Definition invoke (call : fn -> list value -> M value) (name : string)
  (args : list value) : M value :=
  f <- getv call name ;;
  call_value call f args.

(** *** The methods of the NGN base class *)

Section Methods.

Variable call : fn -> list value -> M value.

(** [once: function(eventName,handler){
       this._emitter.once(eventName,handler||function(){}); }] *)
Definition NGNClass_once (args : list value) : M value :=
  let eventName := arg 0 args in
  let handler := arg 1 args in
  e <- getv call "_emitter" ;;
  emitter_add true e eventName
    (js_or handler (VFunction once_default_handler)) ;;
  ret VUndefined.

(** [setMaxListeners: function(eventCount){
       this._emitter.setMaxListeners(eventCount); }] *)
Definition NGNClass_setMaxListeners (args : list value) : M value :=
  let eventCount := arg 0 args in
  e <- getv call "_emitter" ;;
  emitter_setMaxListeners e eventCount ;;
  ret VUndefined.

(** [removeAllListeners: function(){ this._emitter.removeAllListeners(); }] *)
Definition NGNClass_removeAllListeners (args : list value) : M value :=
  e <- getv call "_emitter" ;;
  emitter_removeAllListeners e ;;
  ret VUndefined.

(** [emit: function( eventName, metadata ) {
       this._emitter.emit(eventName, metadata || null); }] *)
Definition NGNClass_emit (args : list value) : M value :=
  let eventName := arg 0 args in
  let metadata := arg 1 args in
  e <- getv call "_emitter" ;;
  emitter_emit e eventName (js_or metadata VNull) ;;
  ret VUndefined.

(** [fireEvent: function( eventName, metadata ) {
       this.emit( eventName, metadata );
       if (process.hasOwnProperty('mechanic')) {
         process.mechanic.send(eventName, metadata);
       } }] *)
Definition NGNClass_fireEvent (args : list value) : M value :=
  let eventName := arg 0 args in
  let metadata := arg 1 args in
  invoke call "emit" [eventName; metadata] ;;
  attached <- process_has_mechanic ;;
  (if attached then record (MechanicSend eventName metadata) else ret tt) ;;
  ret VUndefined.

(** [on: function( eventName, callback ) {
       this._emitter.on(eventName, callback || NGN.emptyFn); }] *)
Definition NGNClass_on (args : list value) : M value :=
  let eventName := arg 0 args in
  let callback := arg 1 args in
  e <- getv call "_emitter" ;;
  coercible e ;;
  listener <- (if truthy callback then ret callback else lift NGN_emptyFn) ;;
  emitter_add false e eventName listener ;;
  ret VUndefined.

(** [addEventListeners: function(evt){
       for(var i=0;i<evt.length;i++){
         this.on(evt[i].trim().toLowerCase(),this['on'+evt[i].trim()]);
       } }] *)
Fixpoint addEventListeners_loop (items : list value) : M unit :=
  match items with
  | [] => ret tt
  | evt_i :: rest =>
      on <- getv call "on" ;;
      trimmed <- lift (call_trim evt_i) ;;
      eventName <- lift (call_toLowerCase trimmed) ;;
      trimmed' <- lift (call_trim evt_i) ;;
      method <- lift (concat_on trimmed') ;;
      handler <- getv call method ;;
      call_value call on [eventName; handler] ;;
      addEventListeners_loop rest
  end.

Definition NGNClass_addEventListeners (args : list value) : M value :=
  let evt := arg 0 args in
  items <- lift (elements evt) ;;
  addEventListeners_loop items ;;
  ret VUndefined.

(** *** The accessors and methods of Login *)

(** [ID: { get: function(){ return this._id; } }] *)
Definition Login_ID_get : M value :=
  getv call "_id".

Definition InvalidAttribute : value :=
  VObject
    [ ("type", VString "InvalidAttribute");
      ("message", VString "The attribute does not exist.");
      ("detail", VString "The ID attribute is only available after a get() or authenticate() or some other lookup method.") ].

Definition email_warning : value :=
  VString "Access Tokens are only available for OAuth and OAuth 2 logins.".

(** [accesstoken: { get: function(){
       if (!this.oauthprovider == null)
         this.bus.emit('error',{type:'InvalidAttribute',...});
       else if (this.oauthprovider == 'email') {
         this.bus.emit('warning','Access Tokens are only ...');
         return null;
       } else
         return this._accessToken || null; } }] *)
Definition Login_accesstoken_get : M value :=
  provider <- getv call "oauthprovider" ;;
  if loose_eq_null (js_not provider) then
    (bus <- getv call "bus" ;;
     emitter_emit bus (VString "error") InvalidAttribute ;;
     ret VUndefined)
  else
    (provider' <- getv call "oauthprovider" ;;
     is_email <- lift (loose_eq_email provider') ;;
     if is_email then
       (bus <- getv call "bus" ;;
        emitter_emit bus (VString "warning") email_warning ;;
        ret VNull)
     else
       (token <- getv call "_accessToken" ;;
        ret (js_or token VNull))).

(** [set: function(value){
       if (this._accessToken !== value){ //TODO: Trigger a cache update }
       this._accessToken = value; }] *)
Definition Login_accesstoken_set (args : list value) : M value :=
  let value := arg 0 args in
  _ <- getv call "_accessToken" ;;
  setv false call "_accessToken" value ;;
  ret VUndefined.

(** [oauthprovider: { get: function() {
       return this.request.user.type.trim().toLowerCase(); } }] *)
Definition Login_oauthprovider_get : M value :=
  request <- getv call "request" ;;
  user <- lift (member request "user") ;;
  type <- lift (member user "type") ;;
  trimmed <- lift (call_trim type) ;;
  lift (call_toLowerCase trimmed).

(** [oauth: { get: function() {
       switch (this.oauthprovider){
         case 'github': return 'gh';   case 'facebook': return 'fb';
         case 'linkedin': return 'li'; case 'twitter': return 'tw';
         case 'google': return 'gg';   case 'openid': return 'oi';
         case 'yahoo': return 'yh';    case 'dropbox': return 'db';
         case 'email': return 'eml';   default: return null; } } }] *)
Definition Login_oauth_get : M value :=
  provider <- getv call "oauthprovider" ;;
  if strict_eq_string provider "github" then ret (VString "gh")
  else if strict_eq_string provider "facebook" then ret (VString "fb")
  else if strict_eq_string provider "linkedin" then ret (VString "li")
  else if strict_eq_string provider "twitter" then ret (VString "tw")
  else if strict_eq_string provider "google" then ret (VString "gg")
  else if strict_eq_string provider "openid" then ret (VString "oi")
  else if strict_eq_string provider "yahoo" then ret (VString "yh")
  else if strict_eq_string provider "dropbox" then ret (VString "db")
  else if strict_eq_string provider "email" then ret (VString "eml")
  else ret VNull.

(** [modified: { get: function(){ return this._modified; },
                 set: function(){ this.emit('error',{type:'InvalidSet',...}); } }] *)
Definition Login_modified_get : M value :=
  getv call "_modified".

Definition InvalidSet : value :=
  VObject
    [ ("type", VString "InvalidSet");
      ("message", VString "This attribute cannot be set.");
      ("detail", VString "The modified attribute cannot be set directly.") ].

Definition Login_modified_set (args : list value) : M value :=
  invoke call "emit" [VString "error"; InvalidSet] ;;
  ret VUndefined.

(** [Login.prototype.processHttpRequest = function( req ) {
       this.ID            = req.user.id;
       this._data         = req.user;
       this._accesstoken  = req.user.accessToken;
       this._oauthprovider = function (){ for (var obj in req.user) {
                                 return obj.trim().toLowerCase(); } } }] *)
Definition Login_processHttpRequest_body (args : list value) : M value :=
  let req := arg 0 args in
  user <- lift (member req "user") ;;
  id <- lift (member user "id") ;;
  setv false call "ID" id ;;
  user' <- lift (member req "user") ;;
  setv false call "_data" user' ;;
  user'' <- lift (member req "user") ;;
  token <- lift (member user'' "accessToken") ;;
  setv false call "_accesstoken" token ;;
  setv false call "_oauthprovider" (VProviderClosure req) ;;
  ret VUndefined.

(** [Login.prototype.authenticate = function ( req ){
       req = req || this._request || null;
       if (req == null) {
         this.bus.emit('error','No request stream available.');
         return;
       } }] *)
Definition Login_authenticate_body (args : list value) : M value :=
  let req := arg 0 args in
  req' <- (if truthy req then ret req
           else (attached <- getv call "_request" ;;
                 ret (js_or attached VNull))) ;;
  if loose_eq_null req' then
    (bus <- getv call "bus" ;;
     emitter_emit bus (VString "error")
       (VString "No request stream available.") ;;
     ret VUndefined)
  else ret VUndefined.

(** One call [f.apply(this, args)].  [fireWarning], [fireError] and
    [onError] write to the console through [colors], [util] and
    [stack-trace]; their bodies, like those of foreign functions, are not
    part of the model. *)
Definition body (f : fn) (args : list value) : M value :=
  match f with
  | NGN_once => NGNClass_once args
  | NGN_setMaxListeners => NGNClass_setMaxListeners args
  | NGN_removeAllListeners => NGNClass_removeAllListeners args
  | NGN_emit => NGNClass_emit args
  | NGN_fireEvent => NGNClass_fireEvent args
  | NGN_on => NGNClass_on args
  | NGN_addEventListeners => NGNClass_addEventListeners args
  | Login_get_ID => Login_ID_get
  | Login_get_accesstoken => Login_accesstoken_get
  | Login_set_accesstoken => Login_accesstoken_set args
  | Login_get_oauthprovider => Login_oauthprovider_get
  | Login_get_oauth => Login_oauth_get
  | Login_get_modified => Login_modified_get
  | Login_set_modified => Login_modified_set args
  | Login_processHttpRequest => Login_processHttpRequest_body args
  | Login_authenticate => Login_authenticate_body args
  | NGN_fireWarning | NGN_fireError | NGN_onError => abort
  | once_default_handler => ret VUndefined
  | foreign _ => abort
  end.

End Methods.

(** Calls nest through the receiver; [fuel] bounds the nesting depth. *)
Fixpoint apply (fuel : nat) (f : fn) (args : list value) : M value :=
  match fuel with
  | O => abort
  | S n => body (apply n) f args
  end.

(** [this.name], [this.name = v] and [this.name(args)] as a caller of the
    object performs them; [strict] tells whether the caller's code is strict
    code. *)
Definition get (fuel : nat) (name : string) : M value :=
  getv (apply fuel) name.

Definition set (strict : bool) (fuel : nat) (name : string) (v : value)
  : M unit :=
  setv strict (apply fuel) name v.

Definition send (fuel : nat) (name : string) (args : list value) : M value :=
  invoke (apply fuel) name args.

(** *** Constructors *)

(** [NGNClass.super.constructor.call(this, config)]: the constructor of the
    root class runs on the receiver. *)
Definition Class_constructor_call (config : value) : M unit :=
  record (Enter KClass config) ;;
  fun st =>
    match Class_constructor config (own st) with
    | Normal o => (Normal tt, with_own st o)
    | Throw e => (Throw e, st)
    | Abort => (Abort, st)
    end.

(** [{ _emitter: { value: new events.EventEmitter(),
                   enumerable: false, writable: true } }] *)
Definition NGNClass_properties (emitter : value) : list (string * descriptor) :=
  [ ("_emitter",
     {| d_value := Some emitter; d_get := None; d_set := None;
        d_writable := Some true; d_enumerable := Some false;
        d_configurable := None |}) ].

(** [constructor: function( config ) {
       config = config || {};
       NGNClass.super.constructor.call(this, config);
       Object.defineProperties(this,{ _emitter: {...} });
       this._emitter.setMaxListeners(25); }] *)
Definition NGNClass_constructor (fuel : nat) (config : value) : M unit :=
  record (Enter KNGNClass config) ;;
  let config := js_or config (VObject []) in
  Class_constructor_call config ;;
  emitter <- new_EventEmitter ;;
  defineProperties KNGNClass (NGNClass_properties emitter) ;;
  e <- get fuel "_emitter" ;;
  emitter_setMaxListeners e (VNumber 25) ;;
  ret tt.

(** The object literal handed to [Object.defineProperties] by the
    constructor of Login, key by key; [request] is [config.request]. *)
Definition Login_properties (request : value) : list (string * descriptor) :=
  [ ("_request",
     {| d_value := Some (js_or request (VObject [])); d_get := None;
        d_set := None; d_writable := Some false; d_enumerable := Some false;
        d_configurable := None |});
    ("_data",
     {| d_value := Some VNull; d_get := None; d_set := None;
        d_writable := Some true; d_enumerable := Some false;
        d_configurable := None |});
    ("_id",
     {| d_value := Some VNull; d_get := None; d_set := None;
        d_writable := Some true; d_enumerable := Some false;
        d_configurable := None |});
    ("ID",
     {| d_value := None; d_get := Some Login_get_ID; d_set := None;
        d_writable := None; d_enumerable := Some true;
        d_configurable := None |});
    ("_accesstoken",
     {| d_value := Some VNull; d_get := None; d_set := None;
        d_writable := Some true; d_enumerable := Some false;
        d_configurable := None |});
    ("accesstoken",
     {| d_value := Some VNull; d_get := Some Login_get_accesstoken;
        d_set := Some Login_set_accesstoken; d_writable := None;
        d_enumerable := Some true; d_configurable := None |});
    ("oauthprovider",
     {| d_value := Some VNull; d_get := Some Login_get_oauthprovider;
        d_set := None; d_writable := None; d_enumerable := Some true;
        d_configurable := None |});
    ("oauth",
     {| d_value := Some VNull; d_get := Some Login_get_oauth; d_set := None;
        d_writable := None; d_enumerable := Some true;
        d_configurable := None |});
    ("_modified",
     {| d_value := Some (VBool false); d_get := None; d_set := None;
        d_writable := Some true; d_enumerable := Some false;
        d_configurable := None |});
    ("modified",
     {| d_value := None; d_get := Some Login_get_modified;
        d_set := Some Login_set_modified; d_writable := None;
        d_enumerable := Some true; d_configurable := None |}) ].

(** [constructor: function( config ){
       Login.super.constructor.call( this, config );
       config = config || {};
       Object.defineProperties(this,{ ... }); }] *)
Definition Login_constructor (fuel : nat) (config : value) : M unit :=
  record (Enter KLogin config) ;;
  NGNClass_constructor fuel config ;;
  let config := js_or config (VObject []) in
  request <- lift (member config "request") ;;
  defineProperties KLogin (Login_properties request).

(** [new Login(config)]: the constructor runs on a receiver that has no own
    property yet. *)
Definition new_Login (fuel : nat) (config : value) (st : state)
  : completion unit * state :=
  Login_constructor fuel config
    (mkState [] KLogin (log st) (emitters st) (mechanic st)).

(** [new NGNClass(config)]: the constructor of the NGN base class on a
    receiver that has no own property yet. *)
Definition new_NGNClass (fuel : nat) (config : value) (st : state)
  : completion unit * state :=
  NGNClass_constructor fuel config
    (mkState [] KNGNClass (log st) (emitters st) (mechanic st)).

(** *** A fragment of [fireError] *)

(** The loop of [fireError] that drops the leading frames of the parsed
    stack trace:

    [while (trace.length > 0
            && trace[0].fileName.indexOf('/node_modules/ngn') >= 0)
       trace.shift();]

    A frame is a value with a [fileName] property; [indexOf] is the
    substring search of strings. *)
Definition internal_path : string := "/node_modules/ngn".

Definition indexOf_found (needle hay : string) : bool :=
  match String.index 0 needle hay with
  | Some _ => true
  | None => false
  end.

(** [frame.fileName.indexOf('/node_modules/ngn') >= 0]: a string is
    searched; [undefined], [null] and values without [indexOf] throw; arrays
    and objects that carry their own [indexOf] leave the model. *)
Definition is_internal_frame (frame : value) : completion bool :=
  match member frame "fileName" with
  | Normal (VString name) => Normal (indexOf_found internal_path name)
  | Normal (VObject fields) =>
      match lookup "indexOf" fields with
      | Some _ => Abort
      | None => Throw TypeError
      end
  | Normal (VArray _) => Abort
  | Normal _ => Throw TypeError
  | Throw e => Throw e
  | Abort => Abort
  end.

Fixpoint fireError_skip_internal (trace : list value)
  : completion (list value) :=
  match trace with
  | [] => Normal []
  | frame :: rest =>
      match is_internal_frame frame with
      | Normal true => fireError_skip_internal rest
      | Normal false => Normal trace
      | Throw e => Throw e
      | Abort => Abort
      end
  end.

(** ** Notions used to state the properties *)

(** The documented table of provider codes, as the specification lists it. *)
Definition documented_codes : list (string * string) :=
  [ ("github", "gh"); ("facebook", "fb"); ("linkedin", "li");
    ("twitter", "tw"); ("google", "gg"); ("openid", "oi");
    ("yahoo", "yh"); ("dropbox", "db"); ("email", "eml") ].

(** The documented code of a provider value: the table entry of a known
    provider name, the "no code" result [null] for anything else. *)
Definition documented_code (provider : value) : value :=
  match provider with
  | VString name =>
      match lookup name documented_codes with
      | Some code => VString code
      | None => VNull
      end
  | _ => VNull
  end.

Definition known_providers : list string := map fst documented_codes.

(** The value of [this[name]] when [name] is not an accessor of the
    receiver: the own data slot, else the inherited property, else
    [undefined]. *)
Definition plain_property (st : state) (name : string) : value :=
  match lookup name (own st) with
  | Some (Data v _ _ _) => v
  | Some (Accessor _ _ _ _) => VUndefined
  | None => default (inherited (kind st) name) VUndefined
  end.

Definition is_accessor (o : object) (name : string) : bool :=
  match lookup name o with
  | Some (Accessor _ _ _ _) => true
  | _ => false
  end.

(** [this.name = v] stores [v] under [name]: the receiver has no such
    property yet, or has it as a writable data slot. *)
Definition assignable (o : object) (name : string) : bool :=
  match lookup name o with
  | None => true
  | Some (Data _ w _ _) => w
  | Some (Accessor _ _ _ _) => false
  end.

(** The root class knows none of [names]: its constructor has left no such
    property on the receiver [o] and its prototype has none to inherit. *)
Definition unknown_to_root (o : object) (names : list string) : Prop :=
  Forall (fun name => lookup name o = None /\ Class_prototype name = None)
         names.

(** The registration [addEventListeners] makes for one event descriptor,
    where [fallback] is the value of [NGN.emptyFn]. *)
Definition registration (st : state) (fallback : value) (id : nat)
  (descriptor : string) : event :=
  EmitterOn id (VString (toLowerCase (trim descriptor)))
    (js_or (plain_property st (String.append "on" (trim descriptor)))
           fallback).

(** [v.name] where the read cannot fail; [undefined] otherwise. *)
Definition field (v : value) (name : string) : value :=
  match member v name with
  | Normal x => x
  | _ => VUndefined
  end.

(** A value that [on] can register: nothing (the fallback is taken) or a
    function. *)
Definition absent_or_function (v : value) : bool :=
  negb (truthy v) || is_function v.

(** Configurations, payloads and surroundings used in examples. *)
Definition config_12345 : value := VObject [("ID", VString "12345")].

Definition facebook_user : value :=
  VObject [ ("facebook", VObject [("name", VString "Ann")]);
            ("id", VString "u1");
            ("accessToken", VString "tok") ].

Definition facebook_payload : value := VObject [("user", facebook_user)].

Definition request_of_type (type : string) : value :=
  VObject [ ("user", VObject [("type", VString type)]) ].

Definition no_root_prototype : string -> option value := fun _ => None.

Definition root_constructor_keeps : value -> object -> completion object :=
  fun _ o => Normal o.


Definition emptyFn : completion value :=
  Normal (VFunction (foreign "NGN.emptyFn")).

Definition start : state := mkState [] KLogin [] 0 false.


(** The names defined by the constructor of Login. *)
Definition Login_names : list string :=
  [ "_request"; "_data"; "_id"; "ID"; "_accesstoken"; "accesstoken";
    "oauthprovider"; "oauth"; "_modified"; "modified" ].

(** * Properties *)

(** ** Reading and writing own properties *)

Lemma lookup_store (k k' : string) (s : slot) (o : object) :
  lookup k (store k' s o) =
  if String.eqb k k' then Some s
  else lookup k o.
Proof.
  induction o as [|[k0 s0] o IH]; simpl.
  - destruct (String.eqb k k'); reflexivity.
  - destruct (String.eqb k' k0) eqn:E0; simpl.
    + apply String.eqb_eq in E0; subst k0.
      destruct (String.eqb k k'); reflexivity.
    + destruct (String.eqb k k0) eqn:E1.
      * destruct (String.eqb k k') eqn:E2; [|reflexivity].
        apply String.eqb_eq in E1, E2; subst.
        rewrite String.eqb_refl in E0; discriminate.
      * exact IH.
Qed.

Lemma lookup_app_new (k k' : string) (s : slot) (o : object) :
  lookup k (o ++ [(k', s)]) =
  match lookup k o with
  | Some x => Some x
  | None => if String.eqb k k' then Some s else None
  end.
Proof.
  induction o as [|[k0 s0] o IH]; simpl.
  - reflexivity.
  - destruct (String.eqb k k0); [reflexivity | exact IH].
Qed.

Lemma lookup_app (k : string) (o o' : object) :
  lookup k (o ++ o') =
  match lookup k o with
  | Some x => Some x
  | None => lookup k o'
  end.
Proof.
  induction o as [|[k0 s0] o IH]; simpl.
  - reflexivity.
  - destruct (String.eqb k k0); [reflexivity | exact IH].
Qed.

Lemma bind_step {A B : Type} (m : M A) (f : A -> M B) st a st' :
  m st = (Normal a, st') -> bind m f st = f a st'.
Proof. intros H; unfold bind; rewrite H; reflexivity. Qed.

Lemma getv_data call name st v w e c :
  lookup name (own st) = Some (Data v w e c) ->
  getv call name st = (Normal v, st).
Proof. intros H; unfold getv; rewrite H; reflexivity. Qed.

Lemma getv_inherited call name st :
  lookup name (own st) = None ->
  getv call name st =
  (Normal (default (inherited (kind st) name) VUndefined), st).
Proof. intros H; unfold getv; rewrite H; reflexivity. Qed.

Lemma getv_plain call name st :
  is_accessor (own st) name = false ->
  getv call name st = (Normal (plain_property st name), st).
Proof.
  unfold is_accessor, getv, plain_property.
  destruct (lookup name (own st)) as [[v w e c|g s e c]|]; intros H;
    try discriminate; reflexivity.
Qed.

(** [this.name = v] where [name] is absent or a writable data slot: the
    value is stored, whether the caller is strict code or not. *)
Lemma setv_assignable strict call name v st :
  assignable (own st) name = true ->
  exists o,
    setv strict call name v st = (Normal tt, with_own st o)
    /\ (exists w e c, lookup name o = Some (Data v w e c))
    /\ forall k, String.eqb k name = false -> lookup k o = lookup k (own st).
Proof.
  unfold assignable, setv.
  destruct (lookup name (own st)) as [[v0 w e c|g s e c]|] eqn:E; intros H;
    try discriminate.
  - subst w. eexists. split; [reflexivity|]. split.
    + exists true, e, c. rewrite lookup_store, String.eqb_refl. reflexivity.
    + intros k Hk. rewrite lookup_store, Hk. reflexivity.
  - eexists. split; [reflexivity|]. split.
    + exists true, true, true. rewrite lookup_app_new, E, String.eqb_refl.
      reflexivity.
    + intros k Hk. rewrite lookup_app_new, Hk.
      destruct (lookup k (own st)); reflexivity.
Qed.

Lemma setv_new strict call name v st :
  lookup name (own st) = None ->
  setv strict call name v st
  = (Normal tt, with_own st (own st ++ [(name, Data v true true true)])).
Proof. intros H; unfold setv; rewrite H; reflexivity. Qed.

Lemma inherited_emit k :
  k <> KClass -> inherited k "emit" = Some (VFunction NGN_emit).
Proof. destruct k; intros H; try reflexivity; contradiction. Qed.

Lemma inherited_on k :
  k <> KClass -> inherited k "on" = Some (VFunction NGN_on).
Proof. destruct k; intros H; try reflexivity; contradiction. Qed.

Lemma inherited_channel k :
  inherited k "_emitter" = Class_prototype "_emitter".
Proof. destruct k; reflexivity. Qed.

(** A name that neither file puts on a prototype is inherited from the root
    class, if at all. *)
Lemma inherited_from_root k name :
  Login_prototype name = None ->
  NGNClass_prototype name = None ->
  inherited k name = Class_prototype name.
Proof. intros H1 H2. destruct k; simpl; rewrite ?H1, ?H2; reflexivity. Qed.

Lemma unknown_to_root_at o names name :
  unknown_to_root o names ->
  In name names ->
  lookup name o = None /\ Class_prototype name = None.
Proof.
  unfold unknown_to_root. rewrite Forall_forall. intros H Hin.
  exact (H name Hin).
Qed.

(** ** Values *)

Lemma truthy_not_null v : truthy v = true -> loose_eq_null v = false.
Proof. destruct v; simpl; intros H; try reflexivity; discriminate. Qed.

Lemma attached_request_truthy request :
  truthy (js_or request (VObject [])) = true.
Proof.
  unfold js_or. destruct (truthy request) eqn:E; [exact E | reflexivity].
Qed.

Lemma loose_eq_null_js_not v : loose_eq_null (js_not v) = false.
Proof. reflexivity. Qed.

Lemma member_of_truthy v name :
  truthy v = true -> exists x, member v name = Normal x.
Proof.
  destruct v; simpl; intros H; try discriminate; eauto.
  destruct (lookup name fields); eauto.
Qed.

Lemma documented_code_switch name :
  (if String.eqb name "github" then VString "gh"
   else if String.eqb name "facebook" then VString "fb"
   else if String.eqb name "linkedin" then VString "li"
   else if String.eqb name "twitter" then VString "tw"
   else if String.eqb name "google" then VString "gg"
   else if String.eqb name "openid" then VString "oi"
   else if String.eqb name "yahoo" then VString "yh"
   else if String.eqb name "dropbox" then VString "db"
   else if String.eqb name "email" then VString "eml"
   else VNull)
  = documented_code (VString name).
Proof.
  unfold documented_code, documented_codes, lookup.
  repeat (match goal with
          | |- context [String.eqb name ?s] => destruct (String.eqb name s)
          end; try reflexivity).
Qed.

(** ** The listeners of a channel *)

Lemma listeners_logged id st e :
  listeners id (with_log st (log st ++ [e])) = register id (listeners id st) e.
Proof. unfold listeners. simpl. rewrite fold_left_app. reflexivity. Qed.

Lemma handlers_with_own id n st o :
  handlers id n (with_own st o) = handlers id n st.
Proof. reflexivity. Qed.

(** Registering a listener under [m] touches the listeners of [m] only. *)
Lemma handlers_on id n st m h :
  handlers id n (with_log st (log st ++ [EmitterOn id (VString m) h]))
  = handlers id n st
    ++ (if String.eqb m n then [mkListener m h false] else []).
Proof.
  unfold handlers. rewrite listeners_logged. simpl.
  rewrite Nat.eqb_refl, filter_app. simpl. reflexivity.
Qed.

Lemma silent_on id n st m h :
  String.eqb m n = false ->
  silent id n (with_log st (log st ++ [EmitterOn id (VString m) h]))
  = silent id n st.
Proof.
  intros H. unfold silent. rewrite handlers_on, H, app_nil_r. reflexivity.
Qed.

(** A channel that has just been created has no listener, whatever was
    logged before and whatever calls that are not registrations follow. *)
Lemma handlers_fresh id n l tail st :
  log st = l ++ EmitterNew id :: tail ->
  forallb (fun e => match e with
                    | EmitterOn _ _ _ | EmitterOnce _ _ _ => false
                    | _ => true
                    end) tail = true ->
  handlers id n st = [].
Proof.
  intros Hlog Htail. unfold handlers, listeners. rewrite Hlog.
  rewrite fold_left_app. simpl. rewrite Nat.eqb_refl.
  clear Hlog. induction tail as [|e tail IH]; [reflexivity|].
  simpl in Htail. apply andb_true_iff in Htail. destruct Htail as [He Ht].
  simpl.
  assert (E : register id [] e = []).
  { destruct e; try discriminate; simpl; try reflexivity;
      try (destruct (Nat.eqb _ id); reflexivity).
    destruct eventName; try reflexivity.
    destruct (Nat.eqb _ id); reflexivity. }
  rewrite E. exact (IH Ht).
Qed.

Lemma lower_ascii_not_L c : lower_ascii c <> "L"%char.
Proof.
  destruct c as [[] [] [] [] [] [] [] []]; vm_compute; discriminate.
Qed.

Lemma toLowerCase_not_newListener s : toLowerCase s <> "newListener".
Proof.
  destruct s as [|c0 [|c1 [|c2 [|c3 s]]]]; simpl; try discriminate.
  intros H. injection H as _ _ _ H _. exact (lower_ascii_not_L _ H).
Qed.

(** ** emit *)

(** [this.emit(eventName, metadata)] on a receiver that inherits [emit] and
    owns its channel comes to what the channel makes of the event. *)
Lemma emit_on_own_channel fuel st id w e c name metadata :
  lookup "emit" (own st) = None ->
  kind st <> KClass ->
  lookup "_emitter" (own st) = Some (Data (VEmitter id) w e c) ->
  invoke (apply (S fuel)) "emit" [VString name; metadata] st =
  match delivery id name st with
  | Normal _ =>
      (Normal VUndefined,
       with_log st
         (log st ++ [EmitterEmit id (VString name) (js_or metadata VNull)]))
  | Throw x => (Throw x, st)
  | Abort => (Abort, st)
  end.
Proof.
  intros Hemit Hkind Hch.
  unfold invoke, bind.
  rewrite (getv_inherited _ _ _ Hemit), (inherited_emit _ Hkind).
  simpl. unfold NGNClass_emit, bind.
  rewrite (getv_data _ _ _ _ _ _ _ Hch). simpl.
  destruct (delivery id name st); reflexivity.
Qed.

(** ** Construction *)

(** The table of Login mixes [value] with [get] in three descriptors
    ([accesstoken], [oauthprovider], [oauth]). *)
Lemma Login_properties_invalid request :
  forallb (fun p => valid_descriptor (snd p)) (Login_properties request)
  = false.
Proof. reflexivity. Qed.

(** The constructor of the NGN base class, when the root constructor
    returns and has not itself defined [_emitter]. *)
Lemma NGNClass_construction fuel config st o :
  Class_constructor (js_or config (VObject [])) (own st) = Normal o ->
  lookup "_emitter" o = None ->
  NGNClass_constructor fuel config st
  = (Normal tt,
     mkState
       (o ++ [("_emitter", Data (VEmitter (emitters st)) true false false)])
       (kind st)
       (log st
        ++ [ Enter KNGNClass config;
             Enter KClass (js_or config (VObject []));
             EmitterNew (emitters st);
             Define KNGNClass ["_emitter"];
             EmitterSetMax (emitters st) (VNumber 25) ])
       (S (emitters st))
       (mechanic st)).
Proof.
  intros Hroot Hfree.
  destruct st as [ow k l n m]. simpl in Hroot. simpl.
  unfold NGNClass_constructor, Class_constructor_call, defineProperties,
    new_EventEmitter, bind, record, with_log, with_own, get, getv, ret.
  simpl. rewrite Hroot. simpl. unfold define_own. rewrite Hfree. simpl.
  rewrite lookup_app_new, Hfree. simpl.
  repeat rewrite <- app_assoc. reflexivity.
Qed.

(** [new Login(config)], when the root constructor returns and has not
    itself defined [_emitter]: the base constructors run, then
    [Object.defineProperties] rejects the table of Login. *)
Lemma new_Login_outcome fuel config st o :
  Class_constructor (js_or config (VObject [])) [] = Normal o ->
  lookup "_emitter" o = None ->
  new_Login fuel config st
  = (Throw TypeError,
     mkState
       (o ++ [("_emitter", Data (VEmitter (emitters st)) true false false)])
       KLogin
       (log st
        ++ [ Enter KLogin config;
             Enter KNGNClass config;
             Enter KClass (js_or config (VObject []));
             EmitterNew (emitters st);
             Define KNGNClass ["_emitter"];
             EmitterSetMax (emitters st) (VNumber 25);
             Define KLogin Login_names ])
       (S (emitters st))
       (mechanic st)).
Proof.
  intros Hroot Hfree.
  unfold new_Login, Login_constructor.
  unfold bind at 1. unfold record at 1.
  rewrite (bind_step _ _ _ _ _
             (NGNClass_construction fuel config
                (with_log
                   (mkState [] KLogin (log st) (emitters st) (mechanic st))
                   (log st ++ [Enter KLogin config]))
                o Hroot Hfree)).
  destruct (member_of_truthy (js_or config (VObject [])) "request"
              (attached_request_truthy config)) as (request & Hm).
  cbv zeta. rewrite Hm.
  unfold bind, lift, defineProperties, bind, record.
  rewrite Login_properties_invalid.
  unfold throw, with_log; simpl.
  repeat rewrite <- app_assoc. reflexivity.
Qed.

(** The channel of the receiver that [new Login(config)] leaves has no
    listener. *)
Lemma new_Login_channel_is_silent fuel config st o n :
  Class_constructor (js_or config (VObject [])) [] = Normal o ->
  lookup "_emitter" o = None ->
  handlers (emitters st) n (snd (new_Login fuel config st)) = [].
Proof.
  intros Hroot Hfree. rewrite (new_Login_outcome fuel config st o Hroot Hfree).
  apply (handlers_fresh _ _
           (log st ++ [Enter KLogin config; Enter KNGNClass config;
                       Enter KClass (js_or config (VObject []))])
           [Define KNGNClass ["_emitter"];
            EmitterSetMax (emitters st) (VNumber 25);
            Define KLogin Login_names]).
  - simpl. rewrite <- app_assoc. reflexivity.
  - reflexivity.
Qed.

(** * The claims *)

(** ** fireEvent *)


(** ** addEventListeners *)

Lemma on_registers fuel st id w e c name callback fallback :
  lookup "_emitter" (own st) = Some (Data (VEmitter id) w e c) ->
  NGN_emptyFn = Normal fallback ->
  is_function fallback = true ->
  absent_or_function callback = true ->
  silent id "newListener" st = true ->
  apply (S fuel) NGN_on [VString name; callback] st
  = (Normal VUndefined,
     with_log st
       (log st ++ [EmitterOn id (VString name) (js_or callback fallback)])).
Proof.
  intros Hch Hfb Hfn Hcb Hs.
  change (apply (S fuel) NGN_on [VString name; callback])
    with (NGNClass_on (apply fuel) [VString name; callback]).
  unfold NGNClass_on.
  rewrite (bind_step _ _ _ _ _ (getv_data _ _ _ _ _ _ _ Hch)).
  change (arg 0 [VString name; callback]) with (VString name).
  change (arg 1 [VString name; callback]) with callback.
  unfold coercible. unfold bind at 1. unfold ret at 1.
  unfold absent_or_function in Hcb. unfold js_or.
  destruct (truthy callback) eqn:Et; simpl in Hcb.
  - unfold bind, ret, emitter_add. rewrite Hcb. simpl. rewrite Hs.
    reflexivity.
  - unfold bind, lift, emitter_add. rewrite Hfb, Hfn. simpl. rewrite Hs.
    reflexivity.
Qed.

(** One turn of the loop of [addEventListeners]. *)
Lemma addEventListeners_turn fuel st id w e c fallback d rest :
  lookup "on" (own st) = None ->
  kind st <> KClass ->
  lookup "_emitter" (own st) = Some (Data (VEmitter id) w e c) ->
  NGN_emptyFn = Normal fallback ->
  is_function fallback = true ->
  silent id "newListener" st = true ->
  is_accessor (own st) (String.append "on" (trim d)) = false ->
  absent_or_function (plain_property st (String.append "on" (trim d)))
  = true ->
  addEventListeners_loop (apply (S fuel)) (VString d :: rest) st
  = addEventListeners_loop (apply (S fuel)) rest
      (with_log st (log st ++ [registration st fallback id d])).
Proof.
  intros Hon Hkind Hch Hfb Hfn Hs Hplain Hcb.
  change (addEventListeners_loop (apply (S fuel)) (VString d :: rest))
    with (on <- getv (apply (S fuel)) "on" ;;
          handler <- getv (apply (S fuel)) (String.append "on" (trim d)) ;;
          call_value (apply (S fuel)) on
            [VString (toLowerCase (trim d)); handler] ;;
          addEventListeners_loop (apply (S fuel)) rest).
  rewrite (bind_step _ _ _ _ _ (getv_inherited _ _ _ Hon)).
  rewrite (inherited_on _ Hkind).
  rewrite (bind_step _ _ _ _ _ (getv_plain _ _ _ Hplain)).
  change (call_value (apply (S fuel)) (default (Some (VFunction NGN_on)) VUndefined)
            [VString (toLowerCase (trim d));
             plain_property st (String.append "on" (trim d))])
    with (apply (S fuel) NGN_on
            [VString (toLowerCase (trim d));
             plain_property st (String.append "on" (trim d))]).
  rewrite (bind_step _ _ _ _ _
             (on_registers fuel st _ _ _ _ _ _ _ Hch Hfb Hfn Hcb Hs)).
  reflexivity.
Qed.

Lemma addEventListeners_loop_registers fuel id w e c fallback descriptors :
  NGN_emptyFn = Normal fallback ->
  is_function fallback = true ->
  forall st,
    lookup "on" (own st) = None ->
    kind st <> KClass ->
    lookup "_emitter" (own st) = Some (Data (VEmitter id) w e c) ->
    silent id "newListener" st = true ->
    (forall d, In d descriptors ->
       is_accessor (own st) (String.append "on" (trim d)) = false
       /\ absent_or_function
            (plain_property st (String.append "on" (trim d))) = true) ->
    addEventListeners_loop (apply (S fuel)) (map VString descriptors) st
    = (Normal tt,
       with_log st (log st ++ map (registration st fallback id) descriptors)).
Proof.
  intros Hfb Hfn.
  induction descriptors as [|d ds IH]; intros st Hon Hkind Hch Hs Hplain.
  - simpl. unfold ret, with_log. rewrite app_nil_r.
    destruct st; reflexivity.
  - simpl map.
    destruct (Hplain d (or_introl eq_refl)) as [Hacc Hcb].
    rewrite (addEventListeners_turn fuel st id w e c fallback d
               (map VString ds) Hon Hkind Hch Hfb Hfn Hs Hacc Hcb).
    rewrite IH; try assumption.
    + unfold with_log. simpl. rewrite <- app_assoc. reflexivity.
    + unfold registration. rewrite silent_on; [exact Hs|].
      apply String.eqb_neq. apply toLowerCase_not_newListener.
    + intros d' Hd'. apply Hplain. right. exact Hd'.
Qed.

(** C8 (amended). For every list of event descriptors (strings), on a
    receiver that inherits [on] and owns its channel, where [NGN.emptyFn] is
    a function, nobody listens for ['newListener'] and every property
    [on<trimmed descriptor>] of the receiver is a function or is missing:
    [addEventListeners] makes one registration per descriptor, in order,
    under the trimmed, lower-cased name; the listener is the property
    [on<trimmed descriptor>] when the receiver has it and [NGN.emptyFn]
    otherwise.  A descriptor without handler method is therefore still
    registered, with the default; no error is raised. *)
Theorem addEventListeners_registers_each
        fuel st id w e c fallback descriptors :
  lookup "on" (own st) = None ->
  kind st <> KClass ->
  lookup "_emitter" (own st) = Some (Data (VEmitter id) w e c) ->
  NGN_emptyFn = Normal fallback ->
  is_function fallback = true ->
  silent id "newListener" st = true ->
  (forall d, In d descriptors ->
     is_accessor (own st) (String.append "on" (trim d)) = false
     /\ absent_or_function
          (plain_property st (String.append "on" (trim d))) = true) ->
  apply (S (S fuel)) NGN_addEventListeners [VArray (map VString descriptors)] st
  = (Normal VUndefined,
     with_log st (log st ++ map (registration st fallback id) descriptors))
  /\ (forall d, In d descriptors ->
        truthy (plain_property st (String.append "on" (trim d))) = false ->
        registration st fallback id d
        = EmitterOn id (VString (toLowerCase (trim d))) fallback).
Proof.
  intros Hon Hkind Hch Hfb Hfn Hs Hplain. split.
  - change (apply (S (S fuel)) NGN_addEventListeners
              [VArray (map VString descriptors)])
      with (NGNClass_addEventListeners (apply (S fuel))
              [VArray (map VString descriptors)]).
    unfold NGNClass_addEventListeners.
    change (arg 0 [VArray (map VString descriptors)])
      with (VArray (map VString descriptors)).
    change (elements (VArray (map VString descriptors)))
      with (Normal (map VString descriptors)).
    rewrite (bind_step _ _ st _ st
               (eq_refl : lift (Normal (map VString descriptors)) st = _)).
    rewrite (bind_step _ _ _ _ _
               (addEventListeners_loop_registers fuel id w e c fallback
                  descriptors Hfb Hfn st Hon Hkind Hch Hs Hplain)).
    reflexivity.
  - intros d _ Hd. unfold registration, js_or. rewrite Hd. reflexivity.
Qed.

(** ** The order of construction *)


(** ** The receiver that the constructor of Login leaves *)

Lemma new_Login_own fuel config st o :
  Class_constructor (js_or config (VObject [])) [] = Normal o ->
  lookup "_emitter" o = None ->
  own (snd (new_Login fuel config st))
  = o ++ [("_emitter", Data (VEmitter (emitters st)) true false false)].
Proof.
  intros Hroot Hfree. rewrite (new_Login_outcome fuel config st o Hroot Hfree).
  reflexivity.
Qed.

Lemma new_Login_kind fuel config st o :
  Class_constructor (js_or config (VObject [])) [] = Normal o ->
  lookup "_emitter" o = None ->
  kind (snd (new_Login fuel config st)) = KLogin.
Proof.
  intros Hroot Hfree. rewrite (new_Login_outcome fuel config st o Hroot Hfree).
  reflexivity.
Qed.

Lemma new_Login_throws fuel config st o :
  Class_constructor (js_or config (VObject [])) [] = Normal o ->
  lookup "_emitter" o = None ->
  fst (new_Login fuel config st) = Throw TypeError.
Proof.
  intros Hroot Hfree. rewrite (new_Login_outcome fuel config st o Hroot Hfree).
  reflexivity.
Qed.

(** Reading a property that the receiver neither owns nor inherits. *)
Lemma get_unknown fuel name st :
  lookup name (own st) = None ->
  Login_prototype name = None ->
  NGNClass_prototype name = None ->
  Class_prototype name = None ->
  get fuel name st = (Normal VUndefined, st).
Proof.
  intros Hown H1 H2 H3. unfold get.
  rewrite (getv_inherited _ _ _ Hown), (inherited_from_root _ _ H1 H2), H3.
  reflexivity.
Qed.

Lemma get_data fuel name st v w e c :
  lookup name (own st) = Some (Data v w e c) ->
  get fuel name st = (Normal v, st).
Proof. apply getv_data. Qed.

Lemma set_new strict fuel name v st :
  lookup name (own st) = None ->
  set strict fuel name v st
  = (Normal tt, with_own st (own st ++ [(name, Data v true true true)])).
Proof. apply setv_new. Qed.

(** [processHttpRequest] on a receiver that has none of the four properties
    it assigns: each assignment makes a new plain property. *)
Lemma processHttpRequest_on_plain_receiver fuel st req user id token :
  member req "user" = Normal user ->
  member user "id" = Normal id ->
  member user "accessToken" = Normal token ->
  lookup "ID" (own st) = None ->
  lookup "_data" (own st) = None ->
  lookup "_accesstoken" (own st) = None ->
  lookup "_oauthprovider" (own st) = None ->
  apply (S fuel) Login_processHttpRequest [req] st
  = (Normal VUndefined,
     with_own st
       (own st
        ++ [ ("ID", Data id true true true);
             ("_data", Data user true true true);
             ("_accesstoken", Data token true true true);
             ("_oauthprovider", Data (VProviderClosure req) true true true) ])).
Proof.
  intros Hu Hi Ht H1 H2 H3 H4.
  change (apply (S fuel) Login_processHttpRequest [req])
    with (Login_processHttpRequest_body (apply fuel) [req]).
  unfold Login_processHttpRequest_body.
  change (arg 0 [req]) with req.
  unfold bind, lift. rewrite Hu, Hi, Ht.
  rewrite (setv_new _ _ _ _ _ H1).
  rewrite setv_new
    by (cbn [own with_own]; rewrite lookup_app_new, H2; reflexivity).
  cbn [own with_own].
  rewrite setv_new
    by (cbn [own with_own]; rewrite !lookup_app_new, H3; reflexivity).
  cbn [own with_own].
  rewrite setv_new
    by (cbn [own with_own]; rewrite !lookup_app_new, H4; reflexivity).
  unfold ret, with_own. cbn [own kind log emitters mechanic].
  repeat rewrite <- app_assoc. reflexivity.
Qed.

(** ** Login: the identity id and the provider name *)

(** C1. Constructing a Login never yields an instance, whatever the
    configuration (one that carries an identity id and no payload included):
    when the root constructor returns, [new Login(config)] ends in a
    [TypeError].  On the receiver it leaves, [ID] and [oauthprovider] are no
    properties at all: both read [undefined], and the reads report no event.
    The getter functions of the table fare no better on that receiver: the
    one of [ID] yields [undefined] -- no id is taken from the configuration
    -- and the one of [oauthprovider] throws a [TypeError], since it reads
    [this.request] where the table defines [_request]. *)
Theorem Login_with_identity_id_is_not_built fuel config st o :
  Class_constructor (js_or config (VObject [])) [] = Normal o ->
  lookup "_emitter" o = None ->
  unknown_to_root o ["ID"; "_id"; "oauthprovider"; "request"] ->
  let built := snd (new_Login fuel config st) in
  fst (new_Login fuel config st) = Throw TypeError
  /\ get fuel "ID" built = (Normal VUndefined, built)
  /\ get fuel "oauthprovider" built = (Normal VUndefined, built)
  /\ apply (S fuel) Login_get_ID [] built = (Normal VUndefined, built)
  /\ apply (S fuel) Login_get_oauthprovider [] built = (Throw TypeError, built).
Proof.
  intros Hroot Hfree Hunk built.
  assert (K := fun name => unknown_to_root_at _ _ name Hunk).
  destruct (K "ID") as [Ho1 Hp1]; [simpl; auto 10|].
  destruct (K "_id") as [Ho2 Hp2]; [simpl; auto 10|].
  destruct (K "oauthprovider") as [Ho3 Hp3]; [simpl; auto 10|].
  destruct (K "request") as [Ho4 Hp4]; [simpl; auto 10|].
  assert (HB := new_Login_own fuel config st o Hroot Hfree).
  fold built in HB.
  assert (L1 : lookup "ID" (own built) = None)
    by (rewrite HB, lookup_app_new, Ho1; reflexivity).
  assert (L2 : lookup "_id" (own built) = None)
    by (rewrite HB, lookup_app_new, Ho2; reflexivity).
  assert (L3 : lookup "oauthprovider" (own built) = None)
    by (rewrite HB, lookup_app_new, Ho3; reflexivity).
  assert (L4 : lookup "request" (own built) = None)
    by (rewrite HB, lookup_app_new, Ho4; reflexivity).
  split; [exact (new_Login_throws fuel config st o Hroot Hfree)|].
  split; [exact (get_unknown fuel _ _ L1 eq_refl eq_refl Hp1)|].
  split; [exact (get_unknown fuel _ _ L3 eq_refl eq_refl Hp3)|].
  split; [exact (get_unknown fuel _ _ L2 eq_refl eq_refl Hp2)|].
  change (apply (S fuel) Login_get_oauthprovider [])
    with (Login_oauthprovider_get (apply fuel)).
  unfold Login_oauthprovider_get.
  rewrite (bind_step _ _ _ _ _ (get_unknown fuel _ _ L4 eq_refl eq_refl Hp4)).
  reflexivity.
Qed.

(** ** Login: extraction from a payload *)

(** C2. On the receiver that [new Login(config)] leaves (no instance is
    ever built: the construction ends in a [TypeError]),
    [processHttpRequest] with the payload
    [{user: {facebook: {...}, id: 'u1', accessToken: 'tok'}}] returns and
    makes four plain properties: [ID] (the id), [_data], [_accesstoken] (the
    token) and [_oauthprovider] (a function that returns ['facebook']); no
    event is emitted.  Afterwards [ID] reads ['u1'], but [oauthprovider],
    [oauth] and [accesstoken] read [undefined]: not ['facebook'], ['fb'] and
    ['tok'].  The token is cached under [_accesstoken], while the getter of
    [accesstoken] would read [_accessToken], which stays [undefined]. *)
Theorem processHttpRequest_facebook_payload fuel config st o :
  Class_constructor (js_or config (VObject [])) [] = Normal o ->
  lookup "_emitter" o = None ->
  unknown_to_root o
    ["ID"; "_data"; "_accesstoken"; "_oauthprovider"; "oauthprovider";
     "oauth"; "accesstoken"; "_accessToken"] ->
  let built := snd (new_Login fuel config st) in
  let extracted :=
    apply (S fuel) Login_processHttpRequest [facebook_payload] built in
  let after := snd extracted in
  fst (new_Login fuel config st) = Throw TypeError
  /\ extracted
     = (Normal VUndefined,
        with_own built
          (own built
           ++ [ ("ID", Data (VString "u1") true true true);
                ("_data", Data facebook_user true true true);
                ("_accesstoken", Data (VString "tok") true true true);
                ("_oauthprovider",
                 Data (VProviderClosure facebook_payload) true true true) ]))
  /\ get fuel "ID" after = (Normal (VString "u1"), after)
  /\ get fuel "_accesstoken" after = (Normal (VString "tok"), after)
  /\ send fuel "_oauthprovider" [] after = (Normal (VString "facebook"), after)
  /\ get fuel "oauthprovider" after = (Normal VUndefined, after)
  /\ get fuel "oauth" after = (Normal VUndefined, after)
  /\ get fuel "accesstoken" after = (Normal VUndefined, after)
  /\ get fuel "_accessToken" after = (Normal VUndefined, after).
Proof.
  intros Hroot Hfree Hunk built extracted after.
  assert (K := fun name => unknown_to_root_at _ _ name Hunk).
  destruct (K "ID") as [Ho1 Hp1]; [simpl; auto 10|].
  destruct (K "_data") as [Ho2 Hp2]; [simpl; auto 10|].
  destruct (K "_accesstoken") as [Ho3 Hp3]; [simpl; auto 10|].
  destruct (K "_oauthprovider") as [Ho4 Hp4]; [simpl; auto 10|].
  destruct (K "oauthprovider") as [Ho5 Hp5]; [simpl; auto 10|].
  destruct (K "oauth") as [Ho6 Hp6]; [simpl; auto 10|].
  destruct (K "accesstoken") as [Ho7 Hp7]; [simpl; auto 10|].
  destruct (K "_accessToken") as [Ho8 Hp8]; [simpl; auto 20|].
  assert (HB := new_Login_own fuel config st o Hroot Hfree).
  fold built in HB.
  assert (L1 : lookup "ID" (own built) = None)
    by (rewrite HB, lookup_app_new, Ho1; reflexivity).
  assert (L2 : lookup "_data" (own built) = None)
    by (rewrite HB, lookup_app_new, Ho2; reflexivity).
  assert (L3 : lookup "_accesstoken" (own built) = None)
    by (rewrite HB, lookup_app_new, Ho3; reflexivity).
  assert (L4 : lookup "_oauthprovider" (own built) = None)
    by (rewrite HB, lookup_app_new, Ho4; reflexivity).
  assert (L5 : lookup "oauthprovider" (own built) = None)
    by (rewrite HB, lookup_app_new, Ho5; reflexivity).
  assert (L6 : lookup "oauth" (own built) = None)
    by (rewrite HB, lookup_app_new, Ho6; reflexivity).
  assert (L7 : lookup "accesstoken" (own built) = None)
    by (rewrite HB, lookup_app_new, Ho7; reflexivity).
  assert (L8 : lookup "_accessToken" (own built) = None)
    by (rewrite HB, lookup_app_new, Ho8; reflexivity).
  assert (E : extracted
              = (Normal VUndefined,
                 with_own built
                   (own built
                    ++ [ ("ID", Data (VString "u1") true true true);
                         ("_data", Data facebook_user true true true);
                         ("_accesstoken", Data (VString "tok") true true true);
                         ("_oauthprovider",
                          Data (VProviderClosure facebook_payload)
                               true true true) ]))).
  { subst extracted.
    apply (processHttpRequest_on_plain_receiver fuel built facebook_payload
             facebook_user (VString "u1") (VString "tok"));
      try reflexivity; assumption. }
  split; [exact (new_Login_throws fuel config st o Hroot Hfree)|].
  split; [exact E|].
  subst after. rewrite E. cbn [snd].
  split.
  { apply (get_data fuel _ _ _ true true true).
    cbn [own with_own]. rewrite lookup_app, L1. reflexivity. }
  split.
  { apply (get_data fuel _ _ _ true true true).
    cbn [own with_own]. rewrite lookup_app, L3. reflexivity. }
  split.
  { unfold send, invoke.
    match goal with
    | |- bind _ _ ?s = _ =>
        assert (F : lookup "_oauthprovider" (own s)
                    = Some (Data (VProviderClosure facebook_payload)
                                 true true true))
          by (cbn [own with_own]; rewrite lookup_app, L4; reflexivity)
    end.
    rewrite (bind_step _ _ _ _ _ (getv_data _ _ _ _ _ _ _ F)).
    reflexivity. }
  split.
  { apply get_unknown; try reflexivity; try assumption.
    cbn [own with_own]. rewrite lookup_app, L5. reflexivity. }
  split.
  { apply get_unknown; try reflexivity; try assumption.
    cbn [own with_own]. rewrite lookup_app, L6. reflexivity. }
  split.
  { apply get_unknown; try reflexivity; try assumption.
    cbn [own with_own]. rewrite lookup_app, L7. reflexivity. }
  { apply get_unknown; try reflexivity; try assumption.
    cbn [own with_own]. rewrite lookup_app, L8. reflexivity. }
Qed.

(** ** Login: the provider code *)

(** C3. The [oauth] property of the table is never installed.  On the
    receiver that [new Login(config)] leaves (the construction ends in a
    [TypeError]) [oauth] reads [undefined], and it still reads [undefined]
    after a provider has been assigned to [oauthprovider] by hand -- for
    every provider, so for none of the nine known names does it read the
    documented code.  The switch of the getter function itself is the
    documented table: applied to that receiver it returns the documented code
    of the assigned provider, [null] for any other value.  With no provider
    assigned, the getter function of [oauthprovider], through which the
    table lets [oauth] read the provider, throws a [TypeError]. *)
Theorem oauth_is_not_installed fuel config st o strict provider :
  Class_constructor (js_or config (VObject [])) [] = Normal o ->
  lookup "_emitter" o = None ->
  unknown_to_root o ["oauth"; "oauthprovider"; "request"] ->
  let built := snd (new_Login fuel config st) in
  let named := snd (set strict fuel "oauthprovider" provider built) in
  fst (new_Login fuel config st) = Throw TypeError
  /\ get fuel "oauth" built = (Normal VUndefined, built)
  /\ apply (S fuel) Login_get_oauthprovider [] built = (Throw TypeError, built)
  /\ get fuel "oauthprovider" named = (Normal provider, named)
  /\ get fuel "oauth" named = (Normal VUndefined, named)
  /\ apply (S fuel) Login_get_oauth [] named
     = (Normal (documented_code provider), named)
  /\ map documented_code (map VString known_providers)
     = map VString ["gh"; "fb"; "li"; "tw"; "gg"; "oi"; "yh"; "db"; "eml"].
Proof.
  intros Hroot Hfree Hunk built named.
  assert (K := fun name => unknown_to_root_at _ _ name Hunk).
  destruct (K "oauth") as [Ho1 Hp1]; [simpl; auto 10|].
  destruct (K "oauthprovider") as [Ho2 Hp2]; [simpl; auto 10|].
  destruct (K "request") as [Ho3 Hp3]; [simpl; auto 10|].
  assert (HB := new_Login_own fuel config st o Hroot Hfree).
  fold built in HB.
  assert (L1 : lookup "oauth" (own built) = None)
    by (rewrite HB, lookup_app_new, Ho1; reflexivity).
  assert (L2 : lookup "oauthprovider" (own built) = None)
    by (rewrite HB, lookup_app_new, Ho2; reflexivity).
  assert (L3 : lookup "request" (own built) = None)
    by (rewrite HB, lookup_app_new, Ho3; reflexivity).
  assert (N : named
              = with_own built
                  (own built
                   ++ [("oauthprovider", Data provider true true true)])).
  { subst named. rewrite (set_new strict fuel _ provider _ L2). reflexivity. }
  assert (P : get fuel "oauthprovider" named = (Normal provider, named)).
  { apply (get_data fuel _ _ _ true true true).
    rewrite N. cbn [own with_own]. rewrite lookup_app_new, L2. reflexivity. }
  split; [exact (new_Login_throws fuel config st o Hroot Hfree)|].
  split; [exact (get_unknown fuel _ _ L1 eq_refl eq_refl Hp1)|].
  split.
  { change (apply (S fuel) Login_get_oauthprovider [])
      with (Login_oauthprovider_get (apply fuel)).
    unfold Login_oauthprovider_get.
    rewrite (bind_step _ _ _ _ _
               (get_unknown fuel _ _ L3 eq_refl eq_refl Hp3)).
    reflexivity. }
  split; [exact P|].
  split.
  { apply get_unknown; try reflexivity; try assumption.
    rewrite N. cbn [own with_own]. rewrite lookup_app_new, L1. reflexivity. }
  split; [|reflexivity].
  change (apply (S fuel) Login_get_oauth [])
    with (Login_oauth_get (apply fuel)).
  unfold Login_oauth_get.
  rewrite (bind_step _ _ _ _ _ P).
  destruct provider; try reflexivity.
  unfold strict_eq_string. rewrite <- documented_code_switch.
  repeat (match goal with
          | |- context [String.eqb s ?x] => destruct (String.eqb s x)
          end; try reflexivity).
Qed.

(** ** Login: the access token *)

(** C4. On the receiver that [new Login(config)] leaves (the construction
    ends in a [TypeError]), with the provider ['email'] assigned to
    [oauthprovider] and any token cached under [_accessToken], reading
    [accesstoken] yields [undefined] and emits nothing: the property of the
    table is never installed.  The getter function of the table, applied to
    that receiver, takes the ['email'] branch and throws a [TypeError]
    before it emits or returns anything: it emits on [this.bus], which no
    code defines. *)
Theorem accesstoken_of_email_login fuel config st o strict token :
  Class_constructor (js_or config (VObject [])) [] = Normal o ->
  lookup "_emitter" o = None ->
  unknown_to_root o ["oauthprovider"; "accesstoken"; "_accessToken"; "bus"] ->
  let built := snd (new_Login fuel config st) in
  let named := snd (set strict fuel "oauthprovider" (VString "email") built) in
  let cached := snd (set strict fuel "_accessToken" token named) in
  fst (new_Login fuel config st) = Throw TypeError
  /\ get fuel "oauthprovider" cached = (Normal (VString "email"), cached)
  /\ get fuel "_accessToken" cached = (Normal token, cached)
  /\ get fuel "accesstoken" cached = (Normal VUndefined, cached)
  /\ apply (S fuel) Login_get_accesstoken [] cached = (Throw TypeError, cached)
  /\ log cached = log built.
Proof.
  intros Hroot Hfree Hunk built named cached.
  assert (K := fun name => unknown_to_root_at _ _ name Hunk).
  destruct (K "oauthprovider") as [Ho1 Hp1]; [simpl; auto 10|].
  destruct (K "accesstoken") as [Ho2 Hp2]; [simpl; auto 10|].
  destruct (K "_accessToken") as [Ho3 Hp3]; [simpl; auto 10|].
  destruct (K "bus") as [Ho4 Hp4]; [simpl; auto 10|].
  assert (HB := new_Login_own fuel config st o Hroot Hfree).
  fold built in HB.
  assert (L1 : lookup "oauthprovider" (own built) = None)
    by (rewrite HB, lookup_app_new, Ho1; reflexivity).
  assert (L2 : lookup "accesstoken" (own built) = None)
    by (rewrite HB, lookup_app_new, Ho2; reflexivity).
  assert (L3 : lookup "_accessToken" (own built) = None)
    by (rewrite HB, lookup_app_new, Ho3; reflexivity).
  assert (L4 : lookup "bus" (own built) = None)
    by (rewrite HB, lookup_app_new, Ho4; reflexivity).
  assert (N : cached
              = with_own built
                  (own built
                   ++ [ ("oauthprovider",
                         Data (VString "email") true true true);
                        ("_accessToken", Data token true true true) ])).
  { subst cached named.
    rewrite (set_new strict fuel _ (VString "email") _ L1). cbn [snd].
    rewrite set_new
      by (cbn [own with_own]; rewrite lookup_app_new, L3; reflexivity).
    cbn [snd own with_own]. unfold with_own. cbn [kind log emitters mechanic].
    rewrite <- app_assoc. reflexivity. }
  assert (P : get fuel "oauthprovider" cached
              = (Normal (VString "email"), cached)).
  { apply (get_data fuel _ _ _ true true true).
    rewrite N. cbn [own with_own]. rewrite lookup_app, L1. reflexivity. }
  assert (B : get fuel "bus" cached = (Normal VUndefined, cached)).
  { apply get_unknown; try reflexivity; try assumption.
    rewrite N. cbn [own with_own]. rewrite lookup_app, L4. reflexivity. }
  split; [exact (new_Login_throws fuel config st o Hroot Hfree)|].
  split; [exact P|].
  split.
  { apply (get_data fuel _ _ _ true true true).
    rewrite N. cbn [own with_own]. rewrite lookup_app, L3. reflexivity. }
  split.
  { apply get_unknown; try reflexivity; try assumption.
    rewrite N. cbn [own with_own]. rewrite lookup_app, L2. reflexivity. }
  split; [|rewrite N; reflexivity].
  change (apply (S fuel) Login_get_accesstoken [])
    with (Login_accesstoken_get (apply fuel)).
  unfold Login_accesstoken_get.
  rewrite (bind_step _ _ _ _ _ P).
  rewrite loose_eq_null_js_not.
  rewrite (bind_step _ _ _ _ _ P).
  unfold bind at 1. unfold lift. cbn [loose_eq_email].
  change (String.eqb "email" "email") with true. cbv beta iota.
  rewrite (bind_step _ _ _ _ _ B).
  reflexivity.
Qed.

(** ** Login: authenticate without payload *)

(** C5. On the receiver that [new Login(config)] leaves (the construction
    ends in a [TypeError], before [_request] is defined), [authenticate]
    with no payload supplied finds no attached payload either and throws a
    [TypeError]: it reports on [this.bus], which no code defines.  Nothing
    is emitted and no property is changed. *)
Theorem authenticate_without_payload_throws fuel config st o args :
  Class_constructor (js_or config (VObject [])) [] = Normal o ->
  lookup "_emitter" o = None ->
  unknown_to_root o ["_request"; "bus"] ->
  truthy (arg 0 args) = false ->
  let built := snd (new_Login fuel config st) in
  fst (new_Login fuel config st) = Throw TypeError
  /\ get fuel "_request" built = (Normal VUndefined, built)
  /\ apply (S fuel) Login_authenticate args built = (Throw TypeError, built).
Proof.
  intros Hroot Hfree Hunk Harg built.
  assert (K := fun name => unknown_to_root_at _ _ name Hunk).
  destruct (K "_request") as [Ho1 Hp1]; [simpl; auto 10|].
  destruct (K "bus") as [Ho2 Hp2]; [simpl; auto 10|].
  assert (HB := new_Login_own fuel config st o Hroot Hfree).
  fold built in HB.
  assert (L1 : lookup "_request" (own built) = None)
    by (rewrite HB, lookup_app_new, Ho1; reflexivity).
  assert (L2 : lookup "bus" (own built) = None)
    by (rewrite HB, lookup_app_new, Ho2; reflexivity).
  assert (R := get_unknown fuel _ _ L1 eq_refl eq_refl Hp1).
  split; [exact (new_Login_throws fuel config st o Hroot Hfree)|].
  split; [exact R|].
  change (apply (S fuel) Login_authenticate args)
    with (Login_authenticate_body (apply fuel) args).
  unfold Login_authenticate_body. rewrite Harg.
  unfold bind at 1. unfold bind at 1. unfold get in R. rewrite R.
  unfold ret at 1. cbn [js_or truthy loose_eq_null].
  rewrite (bind_step _ _ _ _ _ (get_unknown fuel _ _ L2 eq_refl eq_refl Hp2)).
  reflexivity.
Qed.

(** ** Login: the modified attribute *)

(** C6. On the receiver that [new Login(config)] leaves (the construction
    ends in a [TypeError], before [modified] is defined), an assignment to
    [modified] is an ordinary assignment, for strict and non-strict callers
    and every value: it returns, emits nothing and makes a plain property, so
    that [modified] then reads the value assigned -- [true] if [true] was
    assigned -- while [_modified] stays [undefined].  The setter function of
    the table, applied to that receiver, reports nothing either: it emits
    ['error'] on a channel without listener, which throws. *)
Theorem modified_set_is_not_rejected fuel config st o strict v :
  Class_constructor (js_or config (VObject [])) [] = Normal o ->
  lookup "_emitter" o = None ->
  unknown_to_root o ["modified"; "_modified"] ->
  lookup "emit" o = None ->
  let built := snd (new_Login fuel config st) in
  let assigned := set strict (S (S fuel)) "modified" v built in
  fst (new_Login fuel config st) = Throw TypeError
  /\ assigned
     = (Normal tt,
        with_own built (own built ++ [("modified", Data v true true true)]))
  /\ log (snd assigned) = log built
  /\ get fuel "modified" (snd assigned) = (Normal v, snd assigned)
  /\ get fuel "_modified" (snd assigned) = (Normal VUndefined, snd assigned)
  /\ apply (S (S fuel)) Login_set_modified [v] built = (Throw Unhandled, built).
Proof.
  intros Hroot Hfree Hunk Hemit built assigned.
  assert (K := fun name => unknown_to_root_at _ _ name Hunk).
  destruct (K "modified") as [Ho1 Hp1]; [simpl; auto 10|].
  destruct (K "_modified") as [Ho2 Hp2]; [simpl; auto 10|].
  assert (HB := new_Login_own fuel config st o Hroot Hfree).
  assert (HK := new_Login_kind fuel config st o Hroot Hfree).
  assert (HS := new_Login_channel_is_silent fuel config st o "error"
                  Hroot Hfree).
  fold built in HB, HK, HS.
  assert (L1 : lookup "modified" (own built) = None)
    by (rewrite HB, lookup_app_new, Ho1; reflexivity).
  assert (L2 : lookup "_modified" (own built) = None)
    by (rewrite HB, lookup_app_new, Ho2; reflexivity).
  assert (L3 : lookup "emit" (own built) = None)
    by (rewrite HB, lookup_app_new, Hemit; reflexivity).
  assert (L4 : lookup "_emitter" (own built)
               = Some (Data (VEmitter (emitters st)) true false false))
    by (rewrite HB, lookup_app_new, Hfree; reflexivity).
  assert (E : assigned
              = (Normal tt,
                 with_own built
                   (own built ++ [("modified", Data v true true true)])))
    by exact (set_new strict _ _ v _ L1).
  split; [exact (new_Login_throws fuel config st o Hroot Hfree)|].
  split; [exact E|].
  rewrite E. cbn [snd].
  split; [reflexivity|].
  split.
  { apply (get_data fuel _ _ _ true true true).
    cbn [own with_own]. rewrite lookup_app_new, L1. reflexivity. }
  split.
  { apply get_unknown; try reflexivity; try assumption.
    cbn [own with_own]. rewrite lookup_app_new, L2. reflexivity. }
  change (apply (S (S fuel)) Login_set_modified [v])
    with (Login_modified_set (apply (S fuel)) [v]).
  unfold Login_modified_set. unfold bind at 1.
  rewrite (emit_on_own_channel fuel built _ true false false "error"
             InvalidSet L3 ltac:(rewrite HK; discriminate) L4).
  unfold delivery. rewrite HS. reflexivity.
Qed.


(** * Further properties *)

(** ** Construction *)

(** X1. [new Login(config)] never returns normally, for any configuration,
    any root constructor and any start state; and when the root constructor
    returns (without defining [_emitter] itself) the outcome is a [TypeError]
    raised by [Object.defineProperties], which leaves the receiver with the
    root's properties and [_emitter] only -- none of the properties of Login
    is defined. *)
Theorem new_Login_never_returns fuel config st :
  fst (new_Login fuel config st) <> Normal tt
  /\ forall o,
       Class_constructor (js_or config (VObject [])) [] = Normal o ->
       lookup "_emitter" o = None ->
       fst (new_Login fuel config st) = Throw TypeError
       /\ own (snd (new_Login fuel config st))
          = o ++ [("_emitter", Data (VEmitter (emitters st)) true false false)].
Proof.
  split.
  - unfold new_Login, Login_constructor.
    unfold bind at 1. unfold record at 1.
    unfold bind at 1.
    destruct (NGNClass_constructor fuel config _) as [[u|e|] st1];
      simpl; try discriminate.
    destruct (member_of_truthy (js_or config (VObject [])) "request"
                (attached_request_truthy config)) as (request & Hm).
    rewrite Hm.
    unfold bind, lift, defineProperties, bind, record.
    rewrite Login_properties_invalid. simpl. discriminate.
  - intros o Hroot Hfree.
    assert (E : exists l,
               new_Login fuel config st
               = (Throw TypeError,
                  mkState
                    (o ++ [("_emitter",
                            Data (VEmitter (emitters st)) true false false)])
                    KLogin l (S (emitters st)) (mechanic st))).
    { unfold new_Login, Login_constructor.
      unfold bind at 1. unfold record at 1.
      rewrite (bind_step _ _ _ _ _
                 (NGNClass_construction fuel config
                    (with_log
                       (mkState [] KLogin (log st) (emitters st)
                                (mechanic st))
                       (log st ++ [Enter KLogin config]))
                    o Hroot Hfree)).
      destruct (member_of_truthy (js_or config (VObject [])) "request"
                  (attached_request_truthy config)) as (request & Hm).
      cbv zeta. rewrite Hm.
      unfold bind, lift, defineProperties, bind, record.
      rewrite Login_properties_invalid.
      eexists. reflexivity. }
    destruct E as (l & E). rewrite E. split; reflexivity.
Qed.

(** X2. [new NGNClass(config)], when the root constructor returns (without
    defining [_emitter] itself), returns normally and gives the receiver a
    channel of its own with capacity 25; a second construction gets the next
    channel, so two instances never share one. *)
Theorem NGNClass_instances_own_their_channel fuel config config' st o o' :
  Class_constructor (js_or config (VObject [])) [] = Normal o ->
  lookup "_emitter" o = None ->
  Class_constructor (js_or config' (VObject [])) [] = Normal o' ->
  lookup "_emitter" o' = None ->
  let first := new_NGNClass fuel config st in
  let second := new_NGNClass fuel config' (snd first) in
  fst first = Normal tt
  /\ fst second = Normal tt
  /\ lookup "_emitter" (own (snd first))
     = Some (Data (VEmitter (emitters st)) true false false)
  /\ lookup "_emitter" (own (snd second))
     = Some (Data (VEmitter (S (emitters st))) true false false)
  /\ log (snd second)
     = log st
       ++ [ Enter KNGNClass config;
            Enter KClass (js_or config (VObject []));
            EmitterNew (emitters st);
            Define KNGNClass ["_emitter"];
            EmitterSetMax (emitters st) (VNumber 25);
            Enter KNGNClass config';
            Enter KClass (js_or config' (VObject []));
            EmitterNew (S (emitters st));
            Define KNGNClass ["_emitter"];
            EmitterSetMax (S (emitters st)) (VNumber 25) ].
Proof.
  intros Hroot Hfree Hroot' Hfree' first second.
  assert (E1 : first
               = (Normal tt,
                  mkState
                    (o ++ [("_emitter",
                            Data (VEmitter (emitters st)) true false false)])
                    KNGNClass
                    (log st
                     ++ [ Enter KNGNClass config;
                          Enter KClass (js_or config (VObject []));
                          EmitterNew (emitters st);
                          Define KNGNClass ["_emitter"];
                          EmitterSetMax (emitters st) (VNumber 25) ])
                    (S (emitters st)) (mechanic st))).
  { subst first. unfold new_NGNClass.
    apply (NGNClass_construction fuel config
             (mkState [] KNGNClass (log st) (emitters st) (mechanic st))
             o Hroot Hfree). }
  subst second. rewrite E1. simpl snd.
  unfold new_NGNClass.
  rewrite (NGNClass_construction fuel config'
             (mkState [] KNGNClass _ _ _) o' Hroot' Hfree').
  simpl. repeat split.
  - rewrite lookup_app_new, Hfree. reflexivity.
  - rewrite lookup_app_new, Hfree'. reflexivity.
  - rewrite <- app_assoc. reflexivity.
Qed.

(** ** The channel *)

(** X4. On a receiver that has no [_emitter] (a derived constructor that
    did not chain to the base constructor), [once], [setMaxListeners],
    [removeAllListeners], [emit] and [on] throw a [TypeError] for every
    argument list and leave the receiver and the log untouched. *)
Theorem channel_methods_need_the_channel fuel st f args :
  In f [NGN_once; NGN_setMaxListeners; NGN_removeAllListeners; NGN_emit;
        NGN_on] ->
  lookup "_emitter" (own st) = None ->
  Class_prototype "_emitter" = None ->
  apply (S fuel) f args st = (Throw TypeError, st).
Proof.
  intros Hf Hch Hroot.
  assert (E : getv (apply fuel) "_emitter" st = (Normal VUndefined, st)).
  { rewrite (getv_inherited _ _ _ Hch), inherited_channel, Hroot.
    reflexivity. }
  simpl in Hf.
  destruct Hf as [<-|[<-|[<-|[<-|[<-|[]]]]]]; simpl;
    unfold NGNClass_once, NGNClass_setMaxListeners,
      NGNClass_removeAllListeners, NGNClass_emit, NGNClass_on;
    rewrite (bind_step _ _ _ _ _ E); reflexivity.
Qed.

(** X19. [fireEvent] forwards nothing when the local emit fails: on a
    receiver without [_emitter] it throws the [TypeError] of [emit], and the
    Mechanic is not sent the event even when one is attached. *)
Theorem fireEvent_without_channel_does_not_forward
        fuel st eventName metadata :
  lookup "emit" (own st) = None ->
  kind st <> KClass ->
  lookup "_emitter" (own st) = None ->
  Class_prototype "_emitter" = None ->
  apply (S (S fuel)) NGN_fireEvent [eventName; metadata] st
  = (Throw TypeError, st).
Proof.
  intros Hemit Hkind Hch Hroot.
  change (apply (S (S fuel)) NGN_fireEvent [eventName; metadata])
    with (NGNClass_fireEvent (apply (S fuel)) [eventName; metadata]).
  unfold NGNClass_fireEvent.
  assert (E : invoke (apply (S fuel)) "emit"
                [arg 0 [eventName; metadata]; arg 1 [eventName; metadata]] st
              = (Throw TypeError, st)).
  { unfold invoke.
    rewrite (bind_step _ _ _ _ _ (getv_inherited _ _ _ Hemit)).
    rewrite (inherited_emit _ Hkind). simpl default. unfold call_value.
    simpl. unfold NGNClass_emit, bind.
    rewrite (getv_inherited _ _ _ Hch), inherited_channel, Hroot.
    reflexivity. }
  unfold bind at 1. rewrite E. reflexivity.
Qed.

(** ** authenticate *)

(** X15. On a receiver whose [_request] is truthy -- which the constructor's
    table makes it for every configuration -- [authenticate] does nothing for
    any argument list: it returns [undefined], emits no event and changes no
    property, whether a payload is supplied or not. *)
Theorem authenticate_is_a_no_op fuel st r w e c args :
  lookup "_request" (own st) = Some (Data r w e c) ->
  truthy r = true ->
  apply (S fuel) Login_authenticate args st = (Normal VUndefined, st).
Proof.
  intros Hreq Hr.
  change (apply (S fuel) Login_authenticate args)
    with (Login_authenticate_body (apply fuel) args).
  unfold Login_authenticate_body.
  destruct (truthy (arg 0 args)) eqn:Ea.
  - unfold bind, ret. rewrite (truthy_not_null _ Ea). reflexivity.
  - unfold bind. rewrite (getv_data _ _ _ _ _ _ _ Hreq).
    unfold ret, js_or. rewrite Hr, (truthy_not_null _ Hr). reflexivity.
Qed.

(** ** fireError: the frames that are dropped *)

(** X14. The loop of [fireError] over the parsed stack trace, when it
    completes, has removed a prefix of the trace and nothing else: every
    removed frame has a file name that contains ['/node_modules/ngn'], the
    first frame left (if any) does not, and all frames after it are kept as
    they are, whether their file name contains that path or not.  Running the
    loop again on the result removes nothing. *)
Theorem fireError_skip_internal_drops_a_prefix trace rest :
  fireError_skip_internal trace = Normal rest ->
  exists skipped,
    trace = skipped ++ rest
    /\ Forall (fun f => is_internal_frame f = Normal true) skipped
    /\ match rest with
       | [] => True
       | f :: _ => is_internal_frame f = Normal false
       end
    /\ fireError_skip_internal rest = Normal rest.
Proof.
  induction trace as [|frame more IH]; simpl.
  - intros H. injection H as <-. exists []. repeat split. constructor.
  - destruct (is_internal_frame frame) as [[|]| |] eqn:E; try discriminate.
    + intros H. destruct (IH H) as (skipped & -> & Hall & Hhead & Hidem).
      exists (frame :: skipped). repeat split; try assumption.
      constructor; assumption.
    + intros H. injection H as <-. exists []. repeat split.
      * constructor.
      * exact E.
      * simpl. rewrite E. reflexivity.
Qed.

(** X17. The same loop has no guard for a frame without a file name: when
    the frames skipped so far are all internal and the next one has a
    [fileName] that is [null], [undefined] or otherwise without [indexOf],
    the loop -- and [fireError] with it -- ends in a [TypeError]. *)
Theorem fireError_skip_internal_throws_on_nameless_frame skipped frame rest :
  Forall (fun f => is_internal_frame f = Normal true) skipped ->
  is_internal_frame frame = Throw TypeError ->
  fireError_skip_internal (skipped ++ frame :: rest) = Throw TypeError.
Proof.
  intros Hall Hframe. induction Hall as [|f more Hf _ IH]; simpl.
  - rewrite Hframe. reflexivity.
  - rewrite Hf. exact IH.
Qed.

(** ** processHttpRequest without a user structure *)

(** X18. [processHttpRequest] has no guard for a missing payload: called
    without argument, with [null], or with a payload whose [user] is
    [undefined] or [null], it throws a [TypeError] at its first statement, on
    any receiver, before anything is written or emitted. *)
Theorem processHttpRequest_without_user_throws fuel st args :
  member (arg 0 args) "user" = Throw TypeError
  \/ member (arg 0 args) "user" = Normal VUndefined
  \/ member (arg 0 args) "user" = Normal VNull ->
  apply (S fuel) Login_processHttpRequest args st = (Throw TypeError, st).
Proof.
  intros H.
  change (apply (S fuel) Login_processHttpRequest args)
    with (Login_processHttpRequest_body (apply fuel) args).
  unfold Login_processHttpRequest_body, bind, lift.
  destruct H as [H|[H|H]]; rewrite H; reflexivity.
Qed.

(** ** The access token without provider *)

(** X20. The getter of [accesstoken] never reports a missing provider: its
    first test, [!this.oauthprovider == null], is false for every value, so
    whenever reading [oauthprovider] yields a value that is not ['email'] --
    [null] and [undefined] included -- the getter returns the cached token,
    or [null] when the cached token is absent or falsy, and emits nothing. *)
Theorem accesstoken_get_never_reports_missing_provider fuel st provider :
  get fuel "oauthprovider" st = (Normal provider, st) ->
  loose_eq_email provider = Normal false ->
  is_accessor (own st) "_accessToken" = false ->
  apply (S fuel) Login_get_accesstoken [] st
  = (Normal (js_or (plain_property st "_accessToken") VNull), st).
Proof.
  intros Hp Hne Htok. unfold get in Hp.
  change (apply (S fuel) Login_get_accesstoken [])
    with (Login_accesstoken_get (apply fuel)).
  unfold Login_accesstoken_get.
  rewrite (bind_step _ _ _ _ _ Hp).
  rewrite loose_eq_null_js_not.
  rewrite (bind_step _ _ _ _ _ Hp).
  unfold bind at 1. unfold lift. rewrite Hne.
  rewrite (bind_step _ _ _ _ _ (getv_plain _ _ _ Htok)).
  reflexivity.
Qed.

(** ** The channel, continued *)

(** X3. The channel slot is writable: after [this._emitter = other], [emit]
    goes to [other] and no longer to the channel the constructor created
    (shown for an event that [other] has no listener for and that is not
    ['error'], so that the emit returns). *)
Theorem channel_can_be_replaced fuel st strict i j e c name metadata :
  lookup "_emitter" (own st) = Some (Data (VEmitter i) true e c) ->
  lookup "emit" (own st) = None ->
  kind st <> KClass ->
  handlers j name st = [] ->
  name <> "error" ->
  (set strict fuel "_emitter" (VEmitter j) ;;
   send (S fuel) "emit" [VString name; metadata]) st
  = (Normal VUndefined,
     mkState (store "_emitter" (Data (VEmitter j) true e c) (own st))
             (kind st)
             (log st ++ [EmitterEmit j (VString name) (js_or metadata VNull)])
             (emitters st) (mechanic st)).
Proof.
  intros Hch Hemit Hkind Hnone Hname.
  assert (Hset : set strict fuel "_emitter" (VEmitter j) st
                 = (Normal tt,
                    with_own st
                      (store "_emitter" (Data (VEmitter j) true e c) (own st)))).
  { unfold set, setv. rewrite Hch. reflexivity. }
  rewrite (bind_step _ _ _ _ _ Hset).
  unfold send.
  rewrite (emit_on_own_channel fuel _ j true e c name metadata).
  - unfold delivery. rewrite handlers_with_own, Hnone.
    apply String.eqb_neq in Hname. rewrite Hname. reflexivity.
  - simpl. rewrite lookup_store. exact Hemit.
  - exact Hkind.
  - simpl. rewrite lookup_store. reflexivity.
Qed.



(** ** addEventListeners, error and edge cases *)

Lemma addEventListeners_loop_stops fuel id w e c fallback bad rest good :
  NGN_emptyFn = Normal fallback ->
  is_function fallback = true ->
  forall st,
    lookup "on" (own st) = None ->
    kind st <> KClass ->
    lookup "_emitter" (own st) = Some (Data (VEmitter id) w e c) ->
    silent id "newListener" st = true ->
    (forall d, In d good ->
       is_accessor (own st) (String.append "on" (trim d)) = false
       /\ absent_or_function
            (plain_property st (String.append "on" (trim d))) = true) ->
    call_trim bad = Throw TypeError ->
    addEventListeners_loop (apply (S fuel)) (map VString good ++ bad :: rest) st
    = (Throw TypeError,
       with_log st (log st ++ map (registration st fallback id) good)).
Proof.
  intros Hfb Hfn.
  induction good as [|d ds IH]; intros st Hon Hkind Hch Hs Hplain Hbad.
  - simpl app. simpl addEventListeners_loop.
    rewrite (bind_step _ _ _ _ _ (getv_inherited _ _ _ Hon)).
    unfold bind, lift. rewrite Hbad. simpl.
    unfold with_log. rewrite app_nil_r. destruct st; reflexivity.
  - simpl map. simpl app.
    destruct (Hplain d (or_introl eq_refl)) as [Hacc Hcb].
    rewrite (addEventListeners_turn fuel st id w e c fallback d _
               Hon Hkind Hch Hfb Hfn Hs Hacc Hcb).
    rewrite IH; try assumption.
    + unfold with_log. simpl. rewrite <- app_assoc. reflexivity.
    + unfold registration. rewrite silent_on; [exact Hs|].
      apply String.eqb_neq. apply toLowerCase_not_newListener.
    + intros d' Hd'. apply Hplain. right. exact Hd'.
Qed.

(** X7. [addEventListeners] is not all-or-nothing: at the first descriptor
    that has no [trim] ([undefined], [null], a number, ...) it throws a
    [TypeError], and the descriptors before it -- strings whose handler
    property is a function or missing -- stay registered; called without an
    array it throws before registering anything; an empty array registers
    nothing. *)
Theorem addEventListeners_stops_at_bad_descriptor
        fuel st id w e c fallback good bad rest :
  lookup "on" (own st) = None ->
  kind st <> KClass ->
  lookup "_emitter" (own st) = Some (Data (VEmitter id) w e c) ->
  NGN_emptyFn = Normal fallback ->
  is_function fallback = true ->
  silent id "newListener" st = true ->
  (forall d, In d good ->
     is_accessor (own st) (String.append "on" (trim d)) = false
     /\ absent_or_function
          (plain_property st (String.append "on" (trim d))) = true) ->
  call_trim bad = Throw TypeError ->
  apply (S (S fuel)) NGN_addEventListeners
    [VArray (map VString good ++ bad :: rest)] st
  = (Throw TypeError,
     with_log st (log st ++ map (registration st fallback id) good))
  /\ apply (S (S fuel)) NGN_addEventListeners [] st = (Throw TypeError, st)
  /\ apply (S (S fuel)) NGN_addEventListeners [VArray []] st
     = (Normal VUndefined, st).
Proof.
  intros Hon Hkind Hch Hfb Hfn Hs Hplain Hbad. split; [|split].
  - change (apply (S (S fuel)) NGN_addEventListeners
              [VArray (map VString good ++ bad :: rest)])
      with (NGNClass_addEventListeners (apply (S fuel))
              [VArray (map VString good ++ bad :: rest)]).
    unfold NGNClass_addEventListeners.
    change (arg 0 [VArray (map VString good ++ bad :: rest)])
      with (VArray (map VString good ++ bad :: rest)).
    change (elements (VArray (map VString good ++ bad :: rest)))
      with (Normal (map VString good ++ bad :: rest)).
    rewrite (bind_step _ _ st _ st
               (eq_refl : lift (Normal (map VString good ++ bad :: rest)) st
                          = _)).
    unfold bind.
    rewrite (addEventListeners_loop_stops fuel id w e c fallback bad rest good
               Hfb Hfn st Hon Hkind Hch Hs Hplain Hbad).
    reflexivity.
  - reflexivity.
  - reflexivity.
Qed.

(** ** The provider name, continued *)

(** X8. The getter function of [oauthprovider], on a receiver where
    [this.request] reads [request]: when [request.user.type] is a string it
    returns that string trimmed and lower-cased; a request that is
    [undefined] or [null], a request without [user] and a [type] without
    [trim] all end in a [TypeError].  In every case the call changes nothing
    and emits nothing. *)
Theorem oauthprovider_needs_a_string_type fuel st request :
  get fuel "request" st = (Normal request, st) ->
  (forall user type,
     member request "user" = Normal user ->
     member user "type" = Normal (VString type) ->
     apply (S fuel) Login_get_oauthprovider [] st
     = (Normal (VString (toLowerCase (trim type))), st))
  /\ (member request "user" = Throw TypeError
      \/ member request "user" = Normal VUndefined
      \/ member request "user" = Normal VNull ->
      apply (S fuel) Login_get_oauthprovider [] st = (Throw TypeError, st))
  /\ (forall user type,
        member request "user" = Normal user ->
        member user "type" = Normal type ->
        call_trim type = Throw TypeError ->
        apply (S fuel) Login_get_oauthprovider [] st = (Throw TypeError, st)).
Proof.
  intros Hr. unfold get in Hr.
  assert (E : apply (S fuel) Login_get_oauthprovider [] st
              = (user <- lift (member request "user") ;;
                 type <- lift (member user "type") ;;
                 trimmed <- lift (call_trim type) ;;
                 lift (call_toLowerCase trimmed)) st).
  { change (apply (S fuel) Login_get_oauthprovider [])
      with (Login_oauthprovider_get (apply fuel)).
    unfold Login_oauthprovider_get.
    rewrite (bind_step _ _ _ _ _ Hr). reflexivity. }
  rewrite E. unfold bind, lift.
  split; [|split].
  - intros user type Hu Ht. rewrite Hu, Ht. reflexivity.
  - intros [H|[H|H]]; rewrite H; reflexivity.
  - intros user type Hu Ht Htrim. rewrite Hu, Ht, Htrim. reflexivity.
Qed.

(** ** The access token, continued *)

(** X10. With a provider other than ['email'] held by [oauthprovider],
    the setter function of [accesstoken] followed by its getter function
    returns the value stored when it is truthy and [null] when it is falsy:
    an empty string, [0], [false] and [undefined] do not survive the round
    trip.  Neither step emits an event. *)
Theorem accesstoken_round_trip_loses_falsy_values
        fuel st v provider w e c :
  lookup "oauthprovider" (own st) = Some (Data provider w e c) ->
  loose_eq_email provider = Normal false ->
  assignable (own st) "_accessToken" = true ->
  exists st',
    (apply (S fuel) Login_set_accesstoken [v] ;;
     apply (S fuel) Login_get_accesstoken []) st
    = (Normal (if truthy v then v else VNull), st')
    /\ log st' = log st.
Proof.
  intros Hp Hne Htok.
  destruct (setv_assignable false (apply fuel) "_accessToken" v st Htok)
    as (o' & Hset & (w' & e' & c' & Hnew) & Hother).
  exists (with_own st o'). split; [|reflexivity].
  assert (Hget0 : getv (apply fuel) "_accessToken" st
                  = (Normal (plain_property st "_accessToken"), st)).
  { apply getv_plain. unfold is_accessor. unfold assignable in Htok.
    destruct (lookup "_accessToken" (own st)) as [[? ? ? ?|? ? ? ?]|];
      try reflexivity; discriminate. }
  assert (S1 : apply (S fuel) Login_set_accesstoken [v] st
               = (Normal VUndefined, with_own st o')).
  { change (apply (S fuel) Login_set_accesstoken [v])
      with (Login_accesstoken_set (apply fuel) [v]).
    unfold Login_accesstoken_set.
    change (arg 0 [v]) with v.
    rewrite (bind_step _ _ _ _ _ Hget0).
    rewrite (bind_step _ _ _ _ _ Hset). reflexivity. }
  assert (Hp' : lookup "oauthprovider" (own (with_own st o'))
                = Some (Data provider w e c)).
  { cbn [own with_own]. rewrite Hother by reflexivity. exact Hp. }
  assert (P : getv (apply fuel) "oauthprovider" (with_own st o')
              = (Normal provider, with_own st o'))
    by exact (getv_data _ _ _ _ _ _ _ Hp').
  rewrite (bind_step _ _ _ _ _ S1).
  change (apply (S fuel) Login_get_accesstoken [])
    with (Login_accesstoken_get (apply fuel)).
  unfold Login_accesstoken_get.
  rewrite (bind_step _ _ _ _ _ P).
  rewrite loose_eq_null_js_not.
  rewrite (bind_step _ _ _ _ _ P).
  unfold bind at 1. unfold lift. rewrite Hne.
  rewrite (bind_step _ _ _ _ _
             (getv_data _ "_accessToken" (with_own st o') _ _ _ _ Hnew)).
  reflexivity.
Qed.

(** ** processHttpRequest, for every payload *)

Lemma member_field v name :
  v <> VUndefined -> v <> VNull -> member v name = Normal (field v name).
Proof.
  intros H1 H2. unfold field.
  destruct v; try contradiction; simpl; try reflexivity.
  destruct (lookup name fields); reflexivity.
Qed.

(** X11. For every payload that has a user structure, on a receiver that
    has none of [ID], [_data], [_accesstoken] and [_oauthprovider] -- as the
    one the constructor leaves -- [processHttpRequest] makes exactly these
    four plain properties, in this order: the id, the user structure, the
    token (under [_accesstoken], not [_accessToken]) and the provider
    function; an id or token that the structure lacks is stored as
    [undefined].  Nothing is emitted and no other property is touched. *)
Theorem processHttpRequest_makes_four_properties fuel st req user :
  member req "user" = Normal user ->
  user <> VUndefined ->
  user <> VNull ->
  lookup "ID" (own st) = None ->
  lookup "_data" (own st) = None ->
  lookup "_accesstoken" (own st) = None ->
  lookup "_oauthprovider" (own st) = None ->
  apply (S fuel) Login_processHttpRequest [req] st
  = (Normal VUndefined,
     with_own st
       (own st
        ++ [ ("ID", Data (field user "id") true true true);
             ("_data", Data user true true true);
             ("_accesstoken", Data (field user "accessToken") true true true);
             ("_oauthprovider", Data (VProviderClosure req) true true true) ]))
  /\ forall k,
       ~ In k ["ID"; "_data"; "_accesstoken"; "_oauthprovider"] ->
       lookup k (own (snd (apply (S fuel) Login_processHttpRequest [req] st)))
       = lookup k (own st).
Proof.
  intros Hu Hn1 Hn2 H1 H2 H3 H4.
  assert (E := processHttpRequest_on_plain_receiver fuel st req user
                 (field user "id") (field user "accessToken") Hu
                 (member_field _ _ Hn1 Hn2) (member_field _ _ Hn1 Hn2)
                 H1 H2 H3 H4).
  split; [exact E|].
  intros k Hk. rewrite E. cbn [snd own with_own].
  rewrite lookup_app. destruct (lookup k (own st)); [reflexivity|].
  simpl.
  destruct (String.eqb_spec k "ID") as [->|_];
    [exfalso; apply Hk; simpl; auto|].
  destruct (String.eqb_spec k "_data") as [->|_];
    [exfalso; apply Hk; simpl; auto|].
  destruct (String.eqb_spec k "_accesstoken") as [->|_];
    [exfalso; apply Hk; simpl; auto|].
  destruct (String.eqb_spec k "_oauthprovider") as [->|_];
    [exfalso; apply Hk; simpl; auto 10|].
  reflexivity.
Qed.

(** The first key in [for-in] order. *)
Lemma least_index_spec fields :
  forall best,
    match least_index fields best with
    | None =>
        best = None
        /\ forall k, In k (map fst fields) -> array_index k = None
    | Some (n, key) =>
        (best = Some (n, key)
         \/ (In key (map fst fields) /\ array_index key = Some n))
        /\ (forall k m, In k (map fst fields) -> array_index k = Some m ->
                        (n <= m)%N)
        /\ (forall m k, best = Some (m, k) -> (n <= m)%N)
    end.
Proof.
  induction fields as [|[key v] rest IH]; intros best.
  - simpl. destruct best as [[n key]|].
    + split; [left; reflexivity|]. split.
      * intros k m [].
      * intros m k H. injection H as <- _. apply N.le_refl.
    + split; [reflexivity|]. intros k [].
  - cbn [least_index]. 
    match goal with
    | |- context [least_index rest ?b] => specialize (IH b); set (b' := b) in *
    end.
    destruct (least_index rest b') as [[n key']|].
    + destruct IH as (Hsrc & Hmin & Hbest).
      assert (Hb' : forall m, array_index key = Some m -> (n <= m)%N).
      { intros m Hm. subst b'. rewrite Hm in Hbest.
        destruct best as [[m0 k0]|].
        - destruct (N.ltb m m0) eqn:E.
          + apply (Hbest m key). reflexivity.
          + apply N.ltb_ge in E.
            apply N.le_trans with m0; [|exact E].
            apply (Hbest m0 k0). reflexivity.
        - apply (Hbest m key). reflexivity. }
      split; [|split].
      * destruct Hsrc as [Hsrc|[Hin Hidx]].
        -- subst b'. destruct (array_index key) as [m|] eqn:Ek.
           ++ destruct best as [[m0 k0]|].
              ** destruct (N.ltb m m0).
                 --- injection Hsrc as <- <-. right. split; [left; reflexivity|exact Ek].
                 --- left. exact Hsrc.
              ** injection Hsrc as <- <-. right. split; [left; reflexivity|exact Ek].
           ++ left. exact Hsrc.
        -- right. split; [right; exact Hin|exact Hidx].
      * intros k m [<-|Hin] Hm; [apply Hb'; exact Hm|].
        apply (Hmin k m Hin Hm).
      * intros m k Hbm. subst best. subst b'.
        destruct (array_index key) as [m'|].
        -- destruct (N.ltb m' m) eqn:E.
           ++ apply N.ltb_lt in E. apply N.lt_le_incl.
              apply N.le_lt_trans with m'; [|exact E].
              apply (Hbest m' key). reflexivity.
           ++ apply (Hbest m k). reflexivity.
        -- apply (Hbest m k). reflexivity.
    + destruct IH as (Hb & Hnone). subst b'.
      destruct (array_index key) as [m|] eqn:Ek.
      * destruct best as [[m0 k0]|]; [destruct (N.ltb m m0)|]; discriminate.
      * split; [exact Hb|].
        intros k [<-|Hin]; [exact Ek|apply Hnone; exact Hin].
Qed.

(** X12. The function that [processHttpRequest] leaves under
    [_oauthprovider] returns, when called, the first key that [for-in] visits
    in the payload's user structure, trimmed and lower-cased -- whatever that
    key is, a provider name or not; the call changes nothing.  The first key
    visited is the smallest array index among the keys when there is one, and
    the key written first otherwise. *)
Theorem stored_provider_function_returns_first_key
        fuel st req fields w e c key :
  lookup "_oauthprovider" (own st) = Some (Data (VProviderClosure req) w e c) ->
  member req "user" = Normal (VObject fields) ->
  first_key fields = Some key ->
  send fuel "_oauthprovider" [] st
  = (Normal (VString (toLowerCase (trim key))), st)
  /\ In key (map fst fields)
  /\ (forall n, array_index key = Some n ->
        forall k m, In k (map fst fields) -> array_index k = Some m ->
                    (n <= m)%N)
  /\ (array_index key = None ->
      (forall k, In k (map fst fields) -> array_index k = None)
      /\ exists v rest, fields = (key, v) :: rest).
Proof.
  intros Hslot Huser Hkey.
  split.
  { unfold send, invoke.
    rewrite (bind_step _ _ _ _ _ (getv_data _ _ _ _ _ _ _ Hslot)).
    unfold call_value, lift, provider_closure_body.
    rewrite Huser, Hkey. reflexivity. }
  unfold first_key in Hkey.
  assert (Hspec := least_index_spec fields None).
  destruct (least_index fields None) as [[n k0]|].
  - injection Hkey as ->.
    destruct Hspec as ([Hsrc|[Hin Hidx]] & Hmin & _); [discriminate|].
    split; [exact Hin|]. split.
    + intros n' Hn'. rewrite Hidx in Hn'. injection Hn' as <-. exact Hmin.
    + intros Hnone. rewrite Hidx in Hnone. discriminate.
  - destruct Hspec as (_ & Hnone).
    destruct fields as [|[k0 v0] rest]; [discriminate|].
    injection Hkey as ->.
    split; [left; reflexivity|]. split.
    + intros n Hn. rewrite (Hnone key (or_introl eq_refl)) in Hn.
      discriminate.
    + intros _. split; [exact Hnone|]. exists v0, rest. reflexivity.
Qed.

End Program.

(** * The properties at concrete receivers

    The root class of the examples has an empty prototype and a constructor
    that defines nothing (or, where said, keeps the configuration). *)


(** [addEventListeners([' Ready ', 'close'])] on a new base-class instance
    that was given a method [onReady]. *)
Lemma addEventListeners_registers_each_witness :
  let handler := VFunction (foreign "handler") in
  let fallback := VFunction (foreign "NGN.emptyFn") in
  let st :=
    snd (set no_root_prototype emptyFn false 1 "onReady" handler
           (snd (new_NGNClass no_root_prototype root_constructor_keeps emptyFn
                   1 VUndefined (mkState [] KNGNClass [] 0 false)))) in
  apply no_root_prototype emptyFn 2 NGN_addEventListeners
    [VArray [VString " Ready "; VString "close"]] st
  = (Normal VUndefined,
     with_log st
       (log st
        ++ [ EmitterOn 0 (VString "ready") handler;
             EmitterOn 0 (VString "close") fallback ])).
Proof.
  intros handler fallback st.
  refine (proj1 (addEventListeners_registers_each no_root_prototype emptyFn 0
                   st 0 true false false fallback [" Ready "; "close"]
                   eq_refl ltac:(discriminate) eq_refl eq_refl eq_refl eq_refl
                   _)).
  intros d [<-|[<-|[]]]; split; reflexivity.
Defined.


(** [new Login({ID: '12345'})]. *)
Lemma Login_with_identity_id_is_not_built_witness :
  let built :=
    snd (new_Login no_root_prototype root_constructor_keeps emptyFn 1
           config_12345 start) in
  fst (new_Login no_root_prototype root_constructor_keeps emptyFn 1
         config_12345 start) = Throw TypeError
  /\ get no_root_prototype emptyFn 1 "ID" built = (Normal VUndefined, built)
  /\ get no_root_prototype emptyFn 1 "oauthprovider" built
     = (Normal VUndefined, built)
  /\ apply no_root_prototype emptyFn 2 Login_get_ID [] built
     = (Normal VUndefined, built)
  /\ apply no_root_prototype emptyFn 2 Login_get_oauthprovider [] built
     = (Throw TypeError, built).
Proof.
  exact (Login_with_identity_id_is_not_built no_root_prototype
           root_constructor_keeps emptyFn 1 config_12345 start []
           eq_refl eq_refl
           ltac:(repeat constructor)).
Defined.

(** [processHttpRequest] with the facebook payload, after
    [new Login({ID: '12345'})]. *)
Lemma processHttpRequest_facebook_payload_witness :
  let built :=
    snd (new_Login no_root_prototype root_constructor_keeps emptyFn 1
           config_12345 start) in
  let after :=
    snd (apply no_root_prototype emptyFn 2 Login_processHttpRequest
           [facebook_payload] built) in
  get no_root_prototype emptyFn 1 "ID" after = (Normal (VString "u1"), after)
  /\ get no_root_prototype emptyFn 1 "oauthprovider" after
     = (Normal VUndefined, after)
  /\ get no_root_prototype emptyFn 1 "oauth" after = (Normal VUndefined, after)
  /\ get no_root_prototype emptyFn 1 "accesstoken" after
     = (Normal VUndefined, after).
Proof.
  intros built after.
  destruct (processHttpRequest_facebook_payload no_root_prototype
              root_constructor_keeps emptyFn 1 config_12345 start []
              eq_refl eq_refl ltac:(repeat constructor))
    as (_ & _ & H1 & _ & _ & H2 & H3 & H4 & _).
  repeat split; assumption.
Defined.

(** [login.oauthprovider = 'github'] after [new Login()], then [oauth]. *)
Lemma oauth_is_not_installed_witness :
  let built :=
    snd (new_Login no_root_prototype root_constructor_keeps emptyFn 1
           VUndefined start) in
  let named :=
    snd (set no_root_prototype emptyFn true 1 "oauthprovider"
           (VString "github") built) in
  get no_root_prototype emptyFn 1 "oauth" named = (Normal VUndefined, named)
  /\ apply no_root_prototype emptyFn 2 Login_get_oauth [] named
     = (Normal (VString "gh"), named)
  /\ apply no_root_prototype emptyFn 2 Login_get_oauthprovider [] built
     = (Throw TypeError, built).
Proof.
  intros built named.
  destruct (oauth_is_not_installed no_root_prototype root_constructor_keeps
              emptyFn 1 VUndefined start [] true (VString "github")
              eq_refl eq_refl ltac:(repeat constructor))
    as (_ & _ & H1 & _ & H2 & H3 & _).
  repeat split; assumption.
Defined.

(** An email login with the token ['tok'] cached. *)
Lemma accesstoken_of_email_login_witness :
  let built :=
    snd (new_Login no_root_prototype root_constructor_keeps emptyFn 1
           VUndefined start) in
  let named :=
    snd (set no_root_prototype emptyFn false 1 "oauthprovider"
           (VString "email") built) in
  let cached :=
    snd (set no_root_prototype emptyFn false 1 "_accessToken"
           (VString "tok") named) in
  get no_root_prototype emptyFn 1 "accesstoken" cached
  = (Normal VUndefined, cached)
  /\ apply no_root_prototype emptyFn 2 Login_get_accesstoken [] cached
     = (Throw TypeError, cached)
  /\ log cached = log built.
Proof.
  intros built named cached.
  destruct (accesstoken_of_email_login no_root_prototype
              root_constructor_keeps emptyFn 1 VUndefined start [] false
              (VString "tok") eq_refl eq_refl ltac:(repeat constructor))
    as (_ & _ & _ & H1 & H2 & H3).
  repeat split; assumption.
Defined.

(** [authenticate()] after [new Login()]. *)
Lemma authenticate_without_payload_throws_witness :
  let built :=
    snd (new_Login no_root_prototype root_constructor_keeps emptyFn 1
           VUndefined start) in
  apply no_root_prototype emptyFn 2 Login_authenticate [] built
  = (Throw TypeError, built).
Proof.
  intros built.
  exact (proj2 (proj2
           (authenticate_without_payload_throws no_root_prototype
              root_constructor_keeps emptyFn 1 VUndefined start [] []
              eq_refl eq_refl ltac:(repeat constructor) eq_refl))).
Defined.

(** [login.modified = true] after [new Login()], from strict code. *)
Lemma modified_set_is_not_rejected_witness :
  let built :=
    snd (new_Login no_root_prototype root_constructor_keeps emptyFn 1
           VUndefined start) in
  let assigned :=
    set no_root_prototype emptyFn true 3 "modified" (VBool true) built in
  fst assigned = Normal tt
  /\ log (snd assigned) = log built
  /\ get no_root_prototype emptyFn 1 "modified" (snd assigned)
     = (Normal (VBool true), snd assigned)
  /\ apply no_root_prototype emptyFn 3 Login_set_modified [VBool true] built
     = (Throw Unhandled, built).
Proof.
  intros built assigned.
  destruct (modified_set_is_not_rejected no_root_prototype
              root_constructor_keeps emptyFn 1 VUndefined start [] true
              (VBool true) eq_refl eq_refl ltac:(repeat constructor) eq_refl)
    as (_ & H1 & H2 & H3 & _ & H4).
  fold built in H1, H2, H3, H4. fold assigned in H1, H2, H3.
  split; [rewrite H1; reflexivity|].
  repeat split; assumption.
Defined.


(** * Where the code departs from the claims *)


(** C8: on a new base-class instance, which has no method [onclose],
    [addEventListeners(['close'])] still binds the descriptor, to
    [NGN.emptyFn]. *)
Lemma addEventListeners_missing_handler_counterexample :
  let st :=
    snd (new_NGNClass no_root_prototype root_constructor_keeps emptyFn 1
           VUndefined (mkState [] KNGNClass [] 0 false)) in
  plain_property no_root_prototype st "onclose" = VUndefined
  /\ apply no_root_prototype emptyFn 2 NGN_addEventListeners
       [VArray [VString "close"]] st
     = (Normal VUndefined,
        with_log st
          (log st
           ++ [EmitterOn 0 (VString "close")
                 (VFunction (foreign "NGN.emptyFn"))])).
Proof. split; reflexivity. Qed.


(** * The further properties at concrete receivers *)

(** [new Login({ID: "12345"})] over a root constructor that does nothing. *)
Lemma new_Login_never_returns_witness :
  let result :=
    new_Login no_root_prototype root_constructor_keeps emptyFn 0
      config_12345 start in
  fst result = Throw TypeError
  /\ own (snd result) = [("_emitter", Data (VEmitter 0) true false false)].
Proof.
  intros result.
  exact (proj2 (new_Login_never_returns no_root_prototype
                  root_constructor_keeps emptyFn 0 config_12345 start)
               [] eq_refl eq_refl).
Defined.

(** Two base-class instances, the second without configuration. *)
Lemma NGNClass_instances_own_their_channel_witness :
  let st := mkState [] KNGNClass [] 0 false in
  let first :=
    new_NGNClass no_root_prototype root_constructor_keeps emptyFn 0
      config_12345 st in
  let second :=
    new_NGNClass no_root_prototype root_constructor_keeps emptyFn 0
      VUndefined (snd first) in
  lookup "_emitter" (own (snd first))
  = Some (Data (VEmitter 0) true false false)
  /\ lookup "_emitter" (own (snd second))
     = Some (Data (VEmitter 1) true false false).
Proof.
  intros st first second.
  destruct (NGNClass_instances_own_their_channel no_root_prototype
              root_constructor_keeps emptyFn 0 config_12345 VUndefined st
              [] [] eq_refl eq_refl eq_refl eq_refl)
    as (_ & _ & H1 & H2 & _).
  split; assumption.
Defined.

(** Replacing the channel of a new base-class instance by emitter 7. *)
Lemma channel_can_be_replaced_witness :
  let st :=
    snd (new_NGNClass no_root_prototype root_constructor_keeps emptyFn 1
           VUndefined (mkState [] KNGNClass [] 0 false)) in
  log (snd ((set no_root_prototype emptyFn true 0 "_emitter" (VEmitter 7) ;;
             send no_root_prototype emptyFn 1 "emit"
               [VString "ready"; VUndefined]) st))
  = log st ++ [EmitterEmit 7 (VString "ready") VNull].
Proof.
  intros st.
  rewrite (channel_can_be_replaced no_root_prototype emptyFn 0 st true 0 7
             false false "ready" VUndefined
             eq_refl eq_refl ltac:(discriminate) eq_refl
             ltac:(discriminate)).
  reflexivity.
Defined.

(** [emit] on a receiver on which no constructor has run. *)
Lemma channel_methods_need_the_channel_witness :
  let st := mkState [] KNGNClass [] 0 false in
  apply no_root_prototype emptyFn 1 NGN_emit [VString "ready"] st
  = (Throw TypeError, st).
Proof.
  intros st.
  apply (channel_methods_need_the_channel no_root_prototype emptyFn 0 st
           NGN_emit [VString "ready"]).
  - simpl. auto.
  - reflexivity.
  - reflexivity.
Defined.



(** [addEventListeners(['ready', undefined, 'close'])] on a new base-class
    instance. *)
Lemma addEventListeners_stops_at_bad_descriptor_witness :
  let fallback := VFunction (foreign "NGN.emptyFn") in
  let st :=
    snd (new_NGNClass no_root_prototype root_constructor_keeps emptyFn 1
           VUndefined (mkState [] KNGNClass [] 0 false)) in
  apply no_root_prototype emptyFn 2 NGN_addEventListeners
    [VArray [VString "ready"; VUndefined; VString "close"]] st
  = (Throw TypeError,
     with_log st (log st ++ [EmitterOn 0 (VString "ready") fallback])).
Proof.
  intros fallback st.
  refine (proj1 (addEventListeners_stops_at_bad_descriptor no_root_prototype
                   emptyFn 0 st 0 true false false fallback ["ready"]
                   VUndefined [VString "close"]
                   eq_refl ltac:(discriminate) eq_refl eq_refl eq_refl eq_refl
                   _ eq_refl)).
  intros d [<-|[]]; split; reflexivity.
Defined.

(** [login.request = {user: {type: ' GitHub '}}] after [new Login()]; then
    the getter function of [oauthprovider]. *)
Lemma oauthprovider_needs_a_string_type_witness :
  let built :=
    snd (new_Login no_root_prototype root_constructor_keeps emptyFn 1
           VUndefined start) in
  let st :=
    snd (set no_root_prototype emptyFn false 1 "request"
           (request_of_type " GitHub ") built) in
  apply no_root_prototype emptyFn 2 Login_get_oauthprovider [] st
  = (Normal (VString "github"), st).
Proof.
  intros built st.
  exact (proj1 (oauthprovider_needs_a_string_type no_root_prototype emptyFn
                  1 st (request_of_type " GitHub ") eq_refl)
               (VObject [("type", VString " GitHub ")]) " GitHub "
               eq_refl eq_refl).
Defined.

(** A github login: the empty string does not survive the round trip. *)
Lemma accesstoken_round_trip_loses_falsy_values_witness :
  let built :=
    snd (new_Login no_root_prototype root_constructor_keeps emptyFn 1
           VUndefined start) in
  let st :=
    snd (set no_root_prototype emptyFn false 1 "oauthprovider"
           (VString "github") built) in
  fst ((apply no_root_prototype emptyFn 2 Login_set_accesstoken
          [VString ""] ;;
        apply no_root_prototype emptyFn 2 Login_get_accesstoken []) st)
  = Normal VNull.
Proof.
  intros built st.
  destruct (accesstoken_round_trip_loses_falsy_values no_root_prototype
              emptyFn 1 st (VString "") (VString "github") true true true
              eq_refl eq_refl eq_refl)
    as (st' & E & _).
  rewrite E. reflexivity.
Defined.

(** [authenticate('payload')] on a receiver to which a request was
    attached by assignment. *)
Lemma authenticate_is_a_no_op_witness :
  let built :=
    snd (new_Login no_root_prototype root_constructor_keeps emptyFn 1
           VUndefined start) in
  let st :=
    snd (set no_root_prototype emptyFn false 1 "_request"
           (request_of_type "github") built) in
  apply no_root_prototype emptyFn 1 Login_authenticate [VString "payload"] st
  = (Normal VUndefined, st)
  /\ apply no_root_prototype emptyFn 1 Login_authenticate [] st
     = (Normal VUndefined, st).
Proof.
  intros built st. split.
  - apply (authenticate_is_a_no_op no_root_prototype emptyFn 0 st
             (request_of_type "github") true true true [VString "payload"]);
      reflexivity.
  - apply (authenticate_is_a_no_op no_root_prototype emptyFn 0 st
             (request_of_type "github") true true true []);
      reflexivity.
Defined.

(** A trace with one internal frame on top, a caller frame, and an internal
    frame below it: only the top frame goes. *)
Lemma fireError_skip_internal_drops_a_prefix_witness :
  let internal := VObject [("fileName", VString "/app/node_modules/ngn/lib/NGN.Base.js")] in
  let caller := VObject [("fileName", VString "/app/server.js")] in
  fireError_skip_internal [internal; caller; internal]
  = Normal [caller; internal]
  /\ exists skipped,
       [internal; caller; internal] = skipped ++ [caller; internal]
       /\ Forall (fun f => is_internal_frame f = Normal true) skipped.
Proof.
  intros internal caller. split; [reflexivity|].
  destruct (fireError_skip_internal_drops_a_prefix
              [internal; caller; internal] [caller; internal] eq_refl)
    as (skipped & E & Hall & _).
  exists skipped. split; assumption.
Defined.

(** A native frame (file name [null]) on top of the trace. *)
Lemma fireError_skip_internal_throws_on_nameless_frame_witness :
  let native := VObject [("fileName", VNull)] in
  let caller := VObject [("fileName", VString "/app/server.js")] in
  fireError_skip_internal ([] ++ native :: [caller]) = Throw TypeError.
Proof.
  intros native caller.
  apply (fireError_skip_internal_throws_on_nameless_frame [] native [caller]).
  - constructor.
  - reflexivity.
Defined.

(** A payload without id and token, after [new Login()]. *)
Lemma processHttpRequest_makes_four_properties_witness :
  let built :=
    snd (new_Login no_root_prototype root_constructor_keeps emptyFn 1
           VUndefined start) in
  let user := VObject [("twitter", VObject [])] in
  let req := VObject [("user", user)] in
  own (snd (apply no_root_prototype emptyFn 1 Login_processHttpRequest
              [req] built))
  = [ ("_emitter", Data (VEmitter 0) true false false);
      ("ID", Data VUndefined true true true);
      ("_data", Data user true true true);
      ("_accesstoken", Data VUndefined true true true);
      ("_oauthprovider", Data (VProviderClosure req) true true true) ].
Proof.
  intros built user req.
  rewrite (proj1 (processHttpRequest_makes_four_properties no_root_prototype
                    emptyFn 0 built req user eq_refl
                    ltac:(discriminate) ltac:(discriminate)
                    eq_refl eq_refl eq_refl eq_refl)).
  reflexivity.
Defined.

(** [processHttpRequest()] and [processHttpRequest({})] after
    [new Login()]. *)
Lemma processHttpRequest_without_user_throws_witness :
  let st :=
    snd (new_Login no_root_prototype root_constructor_keeps emptyFn 1
           VUndefined start) in
  apply no_root_prototype emptyFn 1 Login_processHttpRequest [] st
  = (Throw TypeError, st)
  /\ apply no_root_prototype emptyFn 1 Login_processHttpRequest
       [VObject []] st
     = (Throw TypeError, st).
Proof.
  intros st. split.
  - apply (processHttpRequest_without_user_throws no_root_prototype emptyFn
             0 st []).
    left. reflexivity.
  - apply (processHttpRequest_without_user_throws no_root_prototype emptyFn
             0 st [VObject []]).
    right. left. reflexivity.
Defined.

(** A payload whose user structure lists [facebook] first but also has the
    keys [7] and [10]: the stored function returns ['7']. *)
Lemma stored_provider_function_returns_first_key_witness :
  let built :=
    snd (new_Login no_root_prototype root_constructor_keeps emptyFn 1
           VUndefined start) in
  let fields :=
    [ ("facebook", VObject []); ("10", VString "y"); ("7", VString "x") ] in
  let req := VObject [("user", VObject fields)] in
  let st :=
    snd (apply no_root_prototype emptyFn 1 Login_processHttpRequest
           [req] built) in
  send no_root_prototype emptyFn 0 "_oauthprovider" [] st
  = (Normal (VString "7"), st).
Proof.
  intros built fields req st.
  exact (proj1 (stored_provider_function_returns_first_key no_root_prototype
                  emptyFn 0 st req fields true true true "7"
                  eq_refl eq_refl eq_refl)).
Defined.

(** [fireEvent] with a Mechanic attached, on a receiver without channel. *)
Lemma fireEvent_without_channel_does_not_forward_witness :
  let st := mkState [] KNGNClass [] 0 true in
  apply no_root_prototype emptyFn 2 NGN_fireEvent
    [VString "ready"; VNumber 1] st
  = (Throw TypeError, st).
Proof.
  intros st.
  apply (fireEvent_without_channel_does_not_forward no_root_prototype emptyFn
           0 st (VString "ready") (VNumber 1)).
  - reflexivity.
  - discriminate.
  - reflexivity.
  - reflexivity.
Defined.

(** A receiver whose provider is a plain [null] and that caches a token. *)
Lemma accesstoken_get_never_reports_missing_provider_witness :
  let st :=
    mkState [ ("oauthprovider", Data VNull true true true);
              ("_accessToken", Data (VString "tok") true true true) ]
            KLogin [] 0 false in
  apply no_root_prototype emptyFn 1 Login_get_accesstoken [] st
  = (Normal (VString "tok"), st).
Proof.
  intros st.
  apply (accesstoken_get_never_reports_missing_provider no_root_prototype
           emptyFn 0 st VNull); reflexivity.
Defined.
